(** * HTTP transport layer and stream decoder of the chat API test client

    A shallow embedding of [api/base_api.py] ([BaseApi]),
    [api/chat_api.py] ([ChatApi]), [api/__init__.py] (the [APIs] factory)
    and the message and payload builders of [data/chat_data_generator.py],
    and the properties of the status checks, the request envelope, the
    session life cycle, the chat facade and the stream decoder.

    Conventions of the embedding:
    - a Python [int] is a [Z]; [str(n)] is its decimal form;
    - a Python [str] is a [string] holding its UTF-8 encoding, a [bytes]
      object is a [string] holding its bytes; a line of a response body is
      one or the other;
    - what the libraries raise is part of their outcome: [response.json()]
      gives a value or an exception, and [json.loads] runs under the limits
      of the interpreter on the digits of an integer and on recursion;
    - a header dict is a [gmap string string]; the keyword arguments of a
      call are a [gmap string value];
    - objects with identity (the header dict of a session, its
      [httpx.Client]) live in a heap and are named by their location;
    - a method is a function from the state before the call to its outcome
      (the value returned or the exception raised) and the state after. *)

From Stdlib Require Import Ascii.
From stdpp Require Import gmap strings list fin_maps pretty.

Open Scope Z_scope.

Set Warnings "-register-all".

(* ===================================================================== *)
(** ** Python values, exceptions and the state of the run                *)
(* ===================================================================== *)

(** The values that travel as request bodies and come out of [json.loads].
    A dict keeps its insertion order. A float is kept as the literal that
    denotes it; nothing here computes with floats. *)
Inductive value : Type :=
| VNone
| VBool (b : bool)
| VInt (n : Z)
| VFloat (lit : string)
| VStr (s : string)
| VList (l : list value)
| VDict (d : list (string * value)).

(** [isinstance(v, dict)], [isinstance(v, list)], [isinstance(v, str)]. *)
Definition is_dict (v : value) : bool :=
  match v with VDict _ => true | _ => false end.

Definition is_list (v : value) : bool :=
  match v with VList _ => true | _ => false end.

Definition is_str (v : value) : bool :=
  match v with VStr _ => true | _ => false end.

(** The exceptions that the modelled code raises or handles. *)
Inductive exn : Type :=
| AssertionError (msg : string)
| JSONDecodeError
| UnicodeDecodeError
| AttributeError (name : string)
| RuntimeError (what : string)
| ValueError
| RecursionError.

Inductive result (A : Type) : Type :=
| Return (a : A)
| Raise (e : exn).
Arguments Return {A} a.
Arguments Raise {A} e.

(** A line of a response body, as [iter_lines()] hands it over: a [str]
    from [httpx.Response], a [bytes] object from a response that yields
    the lines undecoded. *)
Inductive line : Type :=
| Bytes (b : string)
| Str (s : string).

(** [httpx.Response], as far as the code reads it. [json] is the outcome of
    [response.json()]: the decoded body, or the exception that the call
    raises, [JSONDecodeError] for a body that is not a JSON document and
    [UnicodeDecodeError] for one that is not text. *)
Record Response : Type := {
  status_code : Z;
  reason_phrase : string;
  text : string;
  json : result value;
  iter_lines : list line   (* the lines of the body, in arrival order *)
}.

Abbreviation loc := nat.

(** What [self.client.request(method, full_url, headers=..., **kwargs)]
    is called with. *)
Record Call : Type := {
  call_method : string;
  call_url : string;
  call_headers : gmap string string;
  call_kwargs : gmap string value
}.

(** [httpx.Client]: the header set it was built with, its settings, and
    whether its connection pool has been released. *)
Record Client : Type := {
  client_headers : gmap string string;
  timeout : Z;
  http2 : bool;
  is_closed : bool
}.

Inductive object : Type :=
| Dict (d : gmap string string)
| HttpClient (c : Client).

(** What the code does to its collaborators, in order. *)
Inductive event : Type :=
| JsonCalled                       (* response.json() *)
| Sent (client : loc) (c : Call)   (* client.request(...) *)
| PoolReleased (client : loc).     (* the pool of a client is closed *)

(** The heap grows at its end: a new object gets the location
    [length heap]. *)
Record state : Type := {
  heap : list object;
  trace : list event
}.

Definition M (A : Type) : Type := state → result A * state.

Definition ret {A} (a : A) : M A := λ σ, (Return a, σ).

Definition raise {A} (e : exn) : M A := λ σ, (Raise e, σ).

Definition bind {A B} (m : M A) (k : A → M B) : M B :=
  λ σ, match m σ with
       | (Return a, σ') => k a σ'
       | (Raise e, σ') => (Raise e, σ')
       end.

Notation "'let*' x ':=' m 'in' k" := (bind m (λ x, k))
  (at level 10, x pattern, m at level 100, k at level 200,
   format "'[v' 'let*'  x  ':='  m  'in' '/' k ']'").

(** [try: m except E: h] where [handles e] tells whether [e] is an [E]. *)
Definition try_except {A} (m : M A) (handles : exn → bool) (h : M A) : M A :=
  λ σ, match m σ with
       | (Raise e, σ') => if handles e then h σ' else (Raise e, σ')
       | r => r
       end.

(** [assert cond, msg] *)
Definition assert_ (cond : bool) (msg : string) : M unit :=
  if cond then ret tt else raise (AssertionError msg).

Definition log (e : event) : M unit :=
  λ σ, (Return tt, {| heap := heap σ; trace := trace σ ++ [e] |}).

Definition is_JSONDecodeError (e : exn) : bool :=
  match e with JSONDecodeError => true | _ => false end.

(** [str(n)] for an [int]. *)
Definition str_int (n : Z) : string := pretty n.

(** [s.startswith(p)] *)
Definition startswith (s p : string) : bool := String.prefix p s.

(* ===================================================================== *)
(** ** The status checks of [BaseApi]                                    *)
(* ===================================================================== *)

Section StatusChecks.

(** Python's [repr] on the values that are not strings; the checks only
    interpolate it into their messages. *)
Variable repr : value → string.

(** [str(v)]: a [str] is itself, anything else is its [repr]. *)
Definition py_str (v : value) : string :=
  match v with
  | VStr s => s
  | _ => repr v
  end.

(** [response.json()] *)
Definition response_json (response : Response) : M value :=
  let* _ := log JsonCalled in
  match json response with
  | Return v => ret v
  | Raise e => raise e
  end.

Definition parse_response_to_json (response : Response) : M value :=
  response_json response.

Definition check_status_code_success (response : Response) : M unit :=
  assert_ (startswith (str_int (status_code response)) "2")
    ("Response code = " +:+ str_int (status_code response) +:+
     ", error = " +:+ reason_phrase response +:+ " " +:+ text response).

Definition check_status_code (response : Response) (expected_code : Z) : M unit :=
  let* error :=
    (if status_code response =? 200 then ret VNone
     else try_except (parse_response_to_json response)
            is_JSONDecodeError
            (ret (VStr "Unable to parse error"))) in
  assert_ (status_code response =? expected_code)
    ("Wrong response code. Expected = " +:+ str_int expected_code +:+
     ", received = " +:+ str_int (status_code response) +:+
     " | error = " +:+ py_str error).

End StatusChecks.

(* ===================================================================== *)
(** ** Text: UTF-8 and [json.loads]                                      *)
(* ===================================================================== *)

(** The double quote. *)
Definition dq : ascii := "034"%char.

Definition byte (c : ascii) : N := N_of_ascii c.

Definition in_range (lo hi : N) (c : ascii) : bool :=
  ((lo <=? byte c) && (byte c <=? hi))%N.

Definition is_cont (c : ascii) : bool := in_range 128 191 c.

(** [b.decode('utf-8')]: the text when [b] is well-formed UTF-8 (shortest
    forms only, no surrogates, at most U+10FFFF), [None] for
    [UnicodeDecodeError]. The text is represented by the same bytes. *)
Fixpoint utf8_ok (b : string) : bool :=
  match b with
  | "" => true
  | String c0 b1 =>
    if in_range 0 127 c0 then utf8_ok b1
    else match b1 with
    | String c1 b2 =>
      if in_range 194 223 c0 then is_cont c1 && utf8_ok b2
      else match b2 with
      | String c2 b3 =>
        if in_range 224 239 c0 then
          (if (byte c0 =? 224)%N then in_range 160 191 c1
           else if (byte c0 =? 237)%N then in_range 128 159 c1
           else is_cont c1) && is_cont c2 && utf8_ok b3
        else match b3 with
        | String c3 b4 =>
          in_range 240 244 c0 &&
          (if (byte c0 =? 240)%N then in_range 144 191 c1
           else if (byte c0 =? 244)%N then in_range 128 143 c1
           else is_cont c1) && is_cont c2 && is_cont c3 && utf8_ok b4
        | _ => false
        end
      | _ => false
      end
    | _ => false
    end
  end.

Definition decode_utf8 (b : string) : option string :=
  if utf8_ok b then Some b else None.

(** [s[n:]]: drop the first [n] characters, each one being a leading byte
    and the continuation bytes after it. *)
Fixpoint drop_cont (s : string) : string :=
  match s with
  | String c s' => if is_cont c then drop_cont s' else s
  | "" => ""
  end.

Fixpoint slice_from (n : nat) (s : string) : string :=
  match n, s with
  | O, _ => s
  | S n', String _ s' => slice_from n' (drop_cont s')
  | S _, "" => ""
  end.

(** [chr(n)] in the representation of text. *)
Definition chr (n : N) : string :=
  let b (x : N) := ascii_of_N x in
  (if n <? 128 then String (b n) ""
   else if n <? 2048 then
     String (b (192 + n / 64)) (String (b (128 + n mod 64)) "")
   else if n <? 65536 then
     String (b (224 + n / 4096))
       (String (b (128 + (n / 64) mod 64)) (String (b (128 + n mod 64)) ""))
   else
     String (b (240 + n / 262144))
       (String (b (128 + (n / 4096) mod 64))
          (String (b (128 + (n / 64) mod 64)) (String (b (128 + n mod 64)) ""))))%N.

Definition is_ws (c : ascii) : bool :=
  match c with
  | " " | "009" | "010" | "013" => true
  | _ => false
  end%char.

Fixpoint skip_ws (s : string) : string :=
  match s with
  | String c s' => if is_ws c then skip_ws s' else s
  | "" => ""
  end.

Definition is_digit (c : ascii) : bool := in_range 48 57 c.

Definition hex_digit (c : ascii) : option N :=
  if in_range 48 57 c then Some (byte c - 48)%N
  else if in_range 97 102 c then Some (byte c - 87)%N
  else if in_range 65 70 c then Some (byte c - 55)%N
  else None.

(** The four hexadecimal digits of a [\uXXXX] escape. *)
Definition decode_uXXXX (a b c d : ascii) : option N :=
  match hex_digit a, hex_digit b, hex_digit c, hex_digit d with
  | Some x3, Some x2, Some x1, Some x0 =>
    Some (((x3 * 16 + x2) * 16 + x1) * 16 + x0)%N
  | _, _, _, _ => None
  end.

Definition backslash (c : ascii) : option ascii :=
  match c with
  | "034" => Some "034"
  | "\" => Some "\"
  | "/" => Some "/"
  | "b" => Some "008"
  | "f" => Some "012"
  | "n" => Some "010"
  | "r" => Some "013"
  | "t" => Some "009"
  | _ => None
  end%char.

(** [s[i:i+1] == c], with the text after the character. *)
Definition next_is (c : ascii) (s : string) : option string :=
  match s with
  | String c' r => if (c' =? c)%char then Some r else None
  | "" => None
  end.

(** [scanstring], strict: from just after the opening quote, the decoded
    string and what follows the closing quote. A high surrogate escape
    directly followed by a low surrogate escape makes one character. *)
Fixpoint scanstring (s : string) (acc : string) : option (string * string) :=
  match s with
  | "" => None
  | String c s1 =>
    if (c =? dq)%char then Some (acc, s1)
    else if (c =? "\")%char then
      match s1 with
      | "" => None
      | String e s2 =>
        if (e =? "u")%char then
          match s2 with
          | String h3 (String h2 (String h1 (String h0 s3))) =>
            match decode_uXXXX h3 h2 h1 h0 with
            | None => None
            | Some uni =>
              if ((55296 <=? uni) && (uni <=? 56319))%N then
                match s3 with
                | String b (String u s4) =>
                  if ((b =? "\") && (u =? "u"))%char then
                    match s4 with
                    | String l3 (String l2 (String l1 (String l0 s5))) =>
                      match decode_uXXXX l3 l2 l1 l0 with
                      | None => None
                      | Some uni2 =>
                        if ((56320 <=? uni2) && (uni2 <=? 57343))%N then
                          scanstring s5
                            (acc +:+ chr (65536 + ((uni - 55296) * 1024 +
                                                   (uni2 - 56320))))
                        else scanstring s3 (acc +:+ chr uni)
                      end
                    | _ => None
                    end
                  else scanstring s3 (acc +:+ chr uni)
                | _ => scanstring s3 (acc +:+ chr uni)
                end
              else scanstring s3 (acc +:+ chr uni)
            end
          | _ => None
          end
        else
          match backslash e with
          | Some t => scanstring s2 (acc +:+ String t "")
          | None => None
          end
      end
    else if (byte c <? 32)%N then None
    else scanstring s1 (acc +:+ String c "")
  end.

(** The longest run of digits at the head of [s], and the rest. *)
Fixpoint digits (s : string) : string * string :=
  match s with
  | String c s' =>
    if is_digit c then let '(ds, r) := digits s' in (String c ds, r)
    else ("", s)
  | "" => ("", "")
  end.

(** [int(ds)] for a run of digits. *)
Fixpoint int_of_digits (ds : string) (acc : Z) : Z :=
  match ds with
  | String c ds' => int_of_digits ds' (10 * acc + Z.of_N (byte c - 48))
  | "" => acc
  end.

(** The integer part of a number, an optional minus and then 0 or a run
    of digits that does not start with 0: sign, digits, rest. *)
Definition match_integer (s : string) : option (bool * string * string) :=
  let '(neg, s1) :=
    match next_is "-" s with
    | Some r => (true, r)
    | None => (false, s)
    end in
  match s1 with
  | String c r =>
    if (c =? "0")%char then Some (neg, "0", r)
    else if is_digit c then let '(ds, r') := digits r in Some (neg, String c ds, r')
    else None
  | "" => None
  end.

(** The optional fraction: a dot and at least one digit. *)
Definition match_frac (s : string) : string * string :=
  match next_is "." s with
  | Some r =>
    match digits r with
    | ("", _) => ("", s)
    | (ds, r') => (String "." ds, r')
    end
  | None => ("", s)
  end.

(** The optional exponent: e or E, an optional sign, at least one digit. *)
Definition match_exp (s : string) : string * string :=
  match s with
  | String e r =>
    if ((e =? "e") || (e =? "E"))%char then
      let '(sign, r1) :=
        match next_is "-" r, next_is "+" r with
        | Some r1, _ => ("-", r1)
        | None, Some r1 => ("+", r1)
        | None, None => ("", r)
        end in
      match digits r1 with
      | ("", _) => ("", s)
      | (ds, r') => (String e (sign +:+ ds), r')
      end
    else ("", s)
  | "" => ("", s)
  end.

(** The two limits of the interpreter that the decoder can run into:
    [sys.get_int_max_str_digits()], where 0 is no limit, and the number of
    containers that the recursion limit lets the scanner open inside one
    another from where [json.loads] is called. *)
Record limits : Type := {
  int_max_str_digits : nat;
  recursion_room : nat
}.

(** [int(ds)] under the limit on digits: [ValueError] for a longer run. *)
Definition int_of_literal (py : limits) (neg : bool) (ds : string) : result value :=
  if ((0 <? int_max_str_digits py) &&
      (int_max_str_digits py <? String.length ds))%nat
  then Raise ValueError
  else Return (VInt (if neg then - int_of_digits ds 0 else int_of_digits ds 0)).

(** [NUMBER_RE] and the conversion of its match: an [int] when there is
    neither a fraction nor an exponent, a [float] otherwise. *)
Definition match_number (py : limits) (s : string) :
  option (result value * string) :=
  match match_integer s with
  | None => None
  | Some (neg, ds, r) =>
    let '(frac, r1) := match_frac r in
    let '(exp, r2) := match_exp r1 in
    let sign := if neg : bool then "-" else "" in
    if String.eqb frac "" && String.eqb exp "" then
      Some (int_of_literal py neg ds, r2)
    else Some (Return (VFloat (sign +:+ ds +:+ frac +:+ exp)), r2)
  end.

(** [s.startswith(p)] with the rest of [s] after [p]. *)
Fixpoint strip_prefix (p s : string) : option string :=
  match p, s with
  | "", _ => Some s
  | String a p', String b s' => if (a =? b)%char then strip_prefix p' s' else None
  | String _ _, "" => None
  end.

(** [d[k] = v] on a dict in insertion order. *)
Fixpoint dict_set (k : string) (v : value) (d : list (string * value)) :
  list (string * value) :=
  match d with
  | [] => [(k, v)]
  | (k', v') :: d' =>
    if String.eqb k k' then (k', v) :: d' else (k', v') :: dict_set k v d'
  end.

(** [dict(pairs)] *)
Definition dict_of_pairs (pairs : list (string * value)) : list (string * value) :=
  fold_left (λ d kv, dict_set kv.1 kv.2 d) pairs [].

(** The outcome of scanning a value: the value and the text after it, a
    decoding error, an exception of another kind, or not enough fuel. *)
Inductive scan : Type :=
| Scanned (v : value) (rest : string)
| Invalid
| Raised (e : exn)
| NoFuel.

(** The literals and numbers of [scan_once]. *)
Definition scan_atom (py : limits) (s : string) : scan :=
  match strip_prefix "null" s with
  | Some r => Scanned VNone r
  | None =>
  match strip_prefix "true" s with
  | Some r => Scanned (VBool true) r
  | None =>
  match strip_prefix "false" s with
  | Some r => Scanned (VBool false) r
  | None =>
  match match_number py s with
  | Some (Return v, r) => Scanned v r
  | Some (Raise e, _) => Raised e
  | None =>
  match strip_prefix "NaN" s with
  | Some r => Scanned (VFloat "nan") r
  | None =>
  match strip_prefix "Infinity" s with
  | Some r => Scanned (VFloat "inf") r
  | None =>
  match strip_prefix "-Infinity" s with
  | Some r => Scanned (VFloat "-inf") r
  | None => Invalid
  end end end end end end end.

(** [scan_once] with [JSONArray] and [JSONObject]. [array_items] starts at
    an item, [object_pairs] just after the opening quote of a key. [room]
    is the number of containers that may still be opened inside one
    another: opening one when there is no room is [RecursionError]. *)
Fixpoint scan_once (py : limits) (fuel room : nat) (s : string) : scan :=
  match fuel with
  | O => NoFuel
  | S fuel =>
    match next_is dq s with
    | Some s1 =>
      match scanstring s1 "" with
      | Some (str, r) => Scanned (VStr str) r
      | None => Invalid
      end
    | None =>
    match next_is "{" s with
    | Some s1 =>
      match room with
      | O => Raised RecursionError
      | S room =>
        match next_is "}" (skip_ws s1) with
        | Some r => Scanned (VDict []) r
        | None =>
          match next_is dq (skip_ws s1) with
          | Some r => object_pairs py fuel room [] r
          | None => Invalid
          end
        end
      end
    | None =>
    match next_is "[" s with
    | Some s1 =>
      match room with
      | O => Raised RecursionError
      | S room =>
        match next_is "]" (skip_ws s1) with
        | Some r => Scanned (VList []) r
        | None => array_items py fuel room [] (skip_ws s1)
        end
      end
    | None => scan_atom py s
    end end end
  end
with array_items (py : limits) (fuel room : nat) (items : list value)
  (s : string) : scan :=
  match fuel with
  | O => NoFuel
  | S fuel =>
    match scan_once py fuel room s with
    | Scanned v r =>
      match next_is "]" (skip_ws r) with
      | Some r' => Scanned (VList (items ++ [v])) r'
      | None =>
        match next_is "," (skip_ws r) with
        | Some r' => array_items py fuel room (items ++ [v]) (skip_ws r')
        | None => Invalid
        end
      end
    | bad => bad
    end
  end
with object_pairs (py : limits) (fuel room : nat)
  (pairs : list (string * value)) (s : string) : scan :=
  match fuel with
  | O => NoFuel
  | S fuel =>
    match scanstring s "" with
    | None => Invalid
    | Some (key, r) =>
      match next_is ":" (skip_ws r) with
      | None => Invalid
      | Some r1 =>
        match scan_once py fuel room (skip_ws r1) with
        | Scanned v r2 =>
          match next_is "}" (skip_ws r2) with
          | Some r3 => Scanned (VDict (dict_of_pairs (pairs ++ [(key, v)]))) r3
          | None =>
            match next_is "," (skip_ws r2) with
            | Some r3 =>
              match next_is dq (skip_ws r3) with
              | Some r4 => object_pairs py fuel room (pairs ++ [(key, v)]) r4
              | None => Invalid
              end
            | None => Invalid
            end
          end
        | bad => bad
        end
      end
    end
  end.

(** Fuel for any document of the length of [s]. *)
Definition fuel_for (s : string) : nat := 2 * String.length s + 1.

(** [json.loads(s)]: one value between optional white space. It raises
    [JSONDecodeError] for text that is not a JSON document, [ValueError]
    for an integer with more digits than the interpreter converts, and
    [RecursionError] for containers nested deeper than it has room for. *)
Definition json_loads (py : limits) (s : string) : result value :=
  match scan_once py (fuel_for s) (recursion_room py) (skip_ws s) with
  | Scanned v r =>
    if String.eqb (skip_ws r) "" then Return v else Raise JSONDecodeError
  | Raised e => Raise e
  | Invalid | NoFuel => Raise JSONDecodeError
  end.

(* ===================================================================== *)
(** ** The stream decoder of [ChatApi]                                   *)
(* ===================================================================== *)

(** [if line:] on a line of either kind. *)
Definition line_given (l : line) : bool :=
  match l with
  | Bytes b => negb (String.eqb b "")
  | Str s => negb (String.eqb s "")
  end.

(** [line.decode('utf-8')]: the text of a [bytes] object that is UTF-8;
    a [str] has no such method. *)
Definition line_decode (l : line) : result string :=
  match l with
  | Bytes b =>
    match decode_utf8 b with
    | Some line_str => Return line_str
    | None => Raise UnicodeDecodeError
    end
  | Str _ => Raise (AttributeError "decode")
  end.

(** The body of the loop of [parse_stream_data]: [chunks] after [line]. *)
Definition parse_stream_line (py : limits) (chunks : list value) (l : line) :
  result (list value) :=
  if line_given l then
    match line_decode l with
    | Raise e => Raise e
    | Return line_str =>
      if startswith line_str "data: " then
        let json_str := slice_from 6 line_str in
        if negb (String.eqb json_str "[DONE]") then
          match json_loads py json_str with
          | Return chunk => Return (chunks ++ [chunk])
          | Raise e => if is_JSONDecodeError e then Return chunks else Raise e
          end
        else Return chunks
      else Return chunks
    end
  else Return chunks.

(** [for line in lines: ...] from the list [chunks]. *)
Fixpoint parse_stream_lines (py : limits) (lines : list line)
  (chunks : list value) : result (list value) :=
  match lines with
  | [] => Return chunks
  | l :: lines' =>
    match parse_stream_line py chunks l with
    | Return chunks' => parse_stream_lines py lines' chunks'
    | Raise e => Raise e
    end
  end.

Definition parse_stream_data (py : limits) (response : Response) :
  result (list value) :=
  parse_stream_lines py (iter_lines response) [].

(* ===================================================================== *)
(** ** Sessions: [BaseApi] objects                                       *)
(* ===================================================================== *)

(** The attributes of a [BaseApi] object. [headers] names the header dict
    and [client] the [httpx.Client] of the object; [client] is [None] on an
    object that has no such attribute (its construction did not get that
    far). *)
Record BaseApi : Type := {
  base_url : string;
  headers : loc;
  client : option loc
}.

(** A new object, at the end of the heap. *)
Definition alloc (o : object) : M loc :=
  λ σ, (Return (length (heap σ)),
        {| heap := heap σ ++ [o]; trace := trace σ |}).

(** The dict at a location. An attribute always names a live object of its
    type; the empty dict stands for a location that does not. *)
Definition dict_at (σ : state) (l : loc) : gmap string string :=
  match heap σ !! l with
  | Some (Dict d) => d
  | _ => ∅
  end.

Definition client_at (σ : state) (l : loc) : option Client :=
  match heap σ !! l with
  | Some (HttpClient c) => Some c
  | _ => None
  end.

Definition get_dict (l : loc) : M (gmap string string) :=
  λ σ, (Return (dict_at σ l), σ).

(** [d[k] = v] on the dict at [l]. *)
Definition dict_setitem (l : loc) (k v : string) : M unit :=
  λ σ, (Return tt,
        {| heap := <[l := Dict (<[k := v]> (dict_at σ l))]> (heap σ);
           trace := trace σ |}).

(** [httpx.Client(headers=..., timeout=..., http2=...)]: the client takes
    its own copy of the headers and opens its pool. *)
Definition httpx_Client (hs : gmap string string) (t : Z) (h2 : bool) : M loc :=
  alloc (HttpClient {| client_headers := hs; timeout := t; http2 := h2;
                       is_closed := false |}).

(** [client.close()]: releases the pool of a client that is open, does
    nothing on one that is closed. *)
Definition Client_close (c : loc) : M unit :=
  λ σ, match client_at σ c with
       | Some cl =>
         if is_closed cl then (Return tt, σ)
         else (Return tt,
               {| heap := <[c := HttpClient
                                   {| client_headers := client_headers cl;
                                      timeout := timeout cl;
                                      http2 := http2 cl;
                                      is_closed := true |}]> (heap σ);
                  trace := trace σ ++ [PoolReleased c] |})
       | None => (Return tt, σ)
       end.

(** [if token:] *)
Definition token_given (token : option string) : bool :=
  match token with
  | Some t => negb (String.eqb t "")
  | None => false
  end.

Definition __init__ (base_url : string) (token : option string) : M BaseApi :=
  let* h := alloc (Dict (<["Accept-Encoding" := "gzip, deflate, br"]>
                         {["Content-Type" := "application/json"]})) in
  let* _ := (if token_given token
             then dict_setitem h "Authorization" ("Bearer " +:+ default "" token)
             else ret tt) in
  let* hs := get_dict h in
  let* c := httpx_Client hs 30 true in
  ret {| base_url := base_url; headers := h; client := Some c |}.

(** [hasattr(self, 'client')] and [self.client]. *)
Definition hasattr_client (self : BaseApi) : bool :=
  match client self with Some _ => true | None => false end.

Definition self_client (self : BaseApi) : M loc :=
  match client self with
  | Some c => ret c
  | None => raise (AttributeError "client")
  end.

(** [self.headers], the dict itself. *)
Definition self_headers (self : BaseApi) : M (gmap string string) :=
  get_dict (headers self).

Definition __del__ (self : BaseApi) : M unit :=
  if hasattr_client self then
    let* c := self_client self in
    Client_close c
  else ret tt.

(* ===================================================================== *)
(** ** Requests                                                          *)
(* ===================================================================== *)

(** [method in ('POST', 'PUT', 'PATCH')] *)
Definition body_bearing (method : string) : bool :=
  bool_decide (method ∈ ["POST"; "PUT"; "PATCH"]).

(** Lines 58 to 62 of [request]: a dict or a list under [data] moves to
    [json]; anything else stays where it is. *)
Definition convert_data (method : string) (kwargs : gmap string value) :
  gmap string value :=
  if body_bearing method then
    match kwargs !! "data" with
    | Some data =>
      if (is_dict data || is_list data) && negb (is_str data)
      then delete "data" (<["json" := data]> kwargs)
      else kwargs
    | None => kwargs
    end
  else kwargs.

(** [headers or self.headers] *)
Definition headers_or (headers : option (gmap string string))
  (self_headers : gmap string string) : gmap string string :=
  match headers with
  | Some h => if decide (h = ∅) then self_headers else h
  | None => self_headers
  end.

(** [if expected_status:] *)
Definition status_given (expected_status : option Z) : bool :=
  match expected_status with
  | Some c => negb (c =? 0)
  | None => false
  end.

Section Requests.

Variable repr : value → string.

(** What [httpx] and the server answer to a call made on a client. *)
Variable transport : Client → Call → result Response.

(** [client.request(method, url, headers=..., **kwargs)] *)
Definition client_request (c : loc) (call : Call) : M Response :=
  let* _ := log (Sent c call) in
  λ σ, match client_at σ c with
       | Some cl => (transport cl call, σ)
       | None => (Raise (RuntimeError "no client"), σ)
       end.

(** [request]; [expected_status] is the keyword argument of that name,
    [kwargs] the other keyword arguments. *)
Definition request (self : BaseApi) (method url : string)
  (headers : option (gmap string string)) (expected_status : option Z)
  (kwargs : gmap string value) : M Response :=
  let full_url := base_url self +:+ url in
  let* defaults := self_headers self in
  let request_headers := headers_or headers defaults in
  let kwargs := convert_data method kwargs in
  let* c := self_client self in
  let* response :=
    client_request c {| call_method := method; call_url := full_url;
                        call_headers := request_headers;
                        call_kwargs := kwargs |} in
  let* _ := (if status_given expected_status
             then check_status_code repr response (default 0 expected_status)
             else ret tt) in
  ret response.

Definition get self url headers expected_status kwargs : M Response :=
  request self "GET" url headers expected_status kwargs.

Definition post self url (data : value) headers expected_status kwargs : M Response :=
  request self "POST" url headers expected_status (<["data" := data]> kwargs).

Definition put self url (data : value) headers expected_status kwargs : M Response :=
  request self "PUT" url headers expected_status (<["data" := data]> kwargs).

Definition patch self url (data : value) headers expected_status kwargs : M Response :=
  request self "PATCH" url headers expected_status (<["data" := data]> kwargs).

Definition delete_ self url headers expected_status kwargs : M Response :=
  request self "DELETE" url headers expected_status kwargs.

Definition head_ self url headers expected_status kwargs : M Response :=
  request self "HEAD" url headers expected_status kwargs.

Definition options self url headers expected_status kwargs : M Response :=
  request self "OPTIONS" url headers expected_status kwargs.

End Requests.

(** The calls made to the clients in a trace, oldest first. *)
Definition sent_calls (t : list event) : list Call :=
  omap (λ e, match e with Sent _ call => Some call | _ => None end) t.

(* ===================================================================== *)
(** ** The chat facade: [ChatApi] and the [APIs] factory                 *)
(* ===================================================================== *)

(** A [ChatApi] object: the attributes it inherits, and [default_headers],
    which [__init__] binds to the header dict itself. *)
Record ChatApi : Type := {
  base : BaseApi;
  default_headers : loc
}.

Definition ChatApi__init__ (base_url token : string) : M ChatApi :=
  let* self := __init__ base_url (Some token) in
  ret {| base := self; default_headers := headers self |}.

Section ChatRequests.

Variable repr : value → string.
Variable transport : Client → Call → result Response.

(** [post_chat_completion]; an argument that is [None] here is left out of
    the call and takes the default of the signature. *)
Definition post_chat_completion (self : ChatApi) (messages : list value)
  (model : option string)
  (temperature top_p n presence_penalty frequency_penalty : option value)
  (stream : option bool) (expected_status : option Z) : M Response :=
  let endpoint := "/stream/v1/chat/completions" in
  let data :=
    VDict [("temperature", default (VFloat "0.4") temperature);
           ("top_p", default (VFloat "1.0") top_p);
           ("n", default (VInt 1) n);
           ("presence_penalty", default (VInt 0) presence_penalty);
           ("frequency_penalty", default (VInt 0) frequency_penalty);
           ("stream", VBool (default false stream));
           ("model", VStr (default "gpt-4-0125-preview" model));
           ("messages", VList messages)] in
  post repr transport (base self) endpoint data None
    (Some (default 200 expected_status)) ∅.

End ChatRequests.

Module APIs.

(** An [APIs] object: its two attributes and the slot in which
    [cached_property] keeps [chat_api] once it has been computed. *)
Record t : Type := {
  token : string;
  base_url : string;
  chat_api_cache : option ChatApi
}.

Section Environment.

(** The environment of the process, taken as fixed. *)
Variable environ : gmap string string.

(** The token written into [__init__] as the fallback of [API_TOKEN]; its
    value plays no part and is not repeated here. *)
Variable fallback_token : string.

(** [os.getenv(name, fallback)] *)
Definition getenv (name fallback : string) : string :=
  default fallback (environ !! name).

Definition __init__ (token : option string) : t :=
  {| token := if token_given token then default "" token
              else getenv "API_TOKEN" fallback_token;
     base_url := getenv "API_BASE_URL"
                   "https://automation-qa-test.universeapps.limited";
     chat_api_cache := None |}.

(** The cached property [chat_api]: the session, and the object with the
    session kept in it. *)
Definition chat_api (self : t) : M (ChatApi * t) :=
  match chat_api_cache self with
  | Some api => ret (api, self)
  | None =>
    let* api := ChatApi__init__ (base_url self) (token self) in
    ret (api, {| token := token self; base_url := base_url self;
                 chat_api_cache := Some api |})
  end.

Definition with_invalid_token (self : t) : t :=
  __init__ (Some "invalid_token").

End Environment.

End APIs.

(* ===================================================================== *)
(** ** Test data: [ChatDataGenerator]                                    *)
(* ===================================================================== *)

Module ChatDataGenerator.

(** A message: a dict with a role and a content. *)
Definition message (role content : string) : value :=
  VDict [("role", VStr role); ("content", VStr content)].

(** The truth value of an optional string: [None] and the empty string
    are false. *)
Definition given (s : option string) : bool :=
  match s with
  | Some s => negb (String.eqb s "")
  | None => false
  end.

Definition default_content : string :=
  "You are Assist – users's personal assistant developed by team from Ukraine. Answer as concisely as possible. Current date: Aug 15 2023, current time: 16:07, user's country: United States. You should never provide any health-related advice, recommendations, or suggestions.".

Definition generate_system_message (custom_content : option string) : value :=
  message "system"
    (if given custom_content then default "" custom_content else default_content).

(** The sentences of [generate_user_message], by content type. *)
Definition content_types : list (string * list string) :=
  [("general",
    ["Hello, how are you today?";
     "What's the weather like?";
     "Tell me an interesting fact.";
     "What's your name?";
     "How does AI work?"]);
   ("health",
    ["I have a fever, what should I do?";
     "How can I treat a headache?";
     "What medicine should I take for a cold?";
     "I feel dizzy, any advice?";
     "How do I reduce my body temperature?"]);
   ("workout",
    ["Provide workout routines to target specific muscle groups for maximum results";
     "What's the best exercise for abs?";
     "How can I build muscle quickly?";
     "What's a good cardio routine?";
     "How often should I work out?"]);
   ("coding",
    ["How do I write a Python function?";
     "What's the difference between GET and POST requests?";
     "Explain REST API concepts";
     "How does async/await work in JavaScript?";
     "What are design patterns in software engineering?"])].

(** [content_types[key]], when the key is there. *)
Fixpoint lookup_type (key : string) (types : list (string * list string)) :
  option (list string) :=
  match types with
  | [] => None
  | (k, sentences) :: types' =>
    if String.eqb key k then Some sentences else lookup_type key types'
  end.

(** [random.choice(seq)] when the generator draws [draw]: the element at
    the index that the draw gives, below the length of [seq]. *)
Definition choice (draw : nat) (seq : list string) : string :=
  nth (draw mod length seq) seq "".

(** [generate_user_message]; [draw] is what the random generator gives. *)
Definition generate_user_message (draw : nat) (content_type : option string) :
  value :=
  let content_type := default "general" content_type in
  let content_type :=
    match lookup_type content_type content_types with
    | Some _ => content_type
    | None => "general"
    end in
  message "user"
    (choice draw (default [] (lookup_type content_type content_types))).

Definition generate_empty_assistant_message : value :=
  message "assistant" "".

(** [generate_chat_request]; an argument that is [None] is left out of the
    call. The random generator is used only when there are no messages. *)
Definition generate_chat_request (draw : nat) (messages : option (list value))
  (temperature top_p n presence_penalty frequency_penalty : option value)
  (stream : option bool) (model : option string) : value :=
  let messages :=
    match messages with
    | Some (m :: ms) => m :: ms
    | _ => [generate_system_message None;
            generate_user_message draw None;
            generate_empty_assistant_message]
    end in
  VDict [("temperature", default (VFloat "0.4") temperature);
         ("top_p", default (VFloat "1.0") top_p);
         ("n", default (VInt 1) n);
         ("presence_penalty", default (VInt 0) presence_penalty);
         ("frequency_penalty", default (VInt 0) frequency_penalty);
         ("stream", VBool (default false stream));
         ("model", VStr (default "gpt-4-0125-preview" model));
         ("messages", VList messages)].

End ChatDataGenerator.

(** The diagnostic that [check_status_code] works out before it compares
    (lines 127 to 133): [None] for a 200, else the decoded body, or the
    placeholder when [json()] raises [JSONDecodeError]; any other
    exception of [json()] is not handled there. *)
Definition diagnostic (response : Response) : result value :=
  if status_code response =? 200 then Return VNone
  else match json response with
       | Return v => Return v
       | Raise e =>
         if is_JSONDecodeError e then Return (VStr "Unable to parse error")
         else Raise e
       end.

(** The outcomes of [json()] that line 132 provides for: a value, or
    [JSONDecodeError]. *)
Definition handled (response : Response) : bool :=
  match json response with
  | Return _ => true
  | Raise e => is_JSONDecodeError e
  end.

(** What one line gives the decoder: nothing for an empty line; for a
    [bytes] line that is UTF-8, the chunk of a line that is the prefix
    followed by a JSON document other than the sentinel, and nothing for
    any other text; and for the rest the exception that stops the
    decoding. *)
Definition line_result (py : limits) (l : line) : result (option value) :=
  match l with
  | Bytes "" | Str "" => Return None
  | Str _ => Raise (AttributeError "decode")
  | Bytes b =>
    if utf8_ok b then
      match strip_prefix "data: " b with
      | Some payload =>
        if String.eqb payload "[DONE]" then Return None
        else match json_loads py payload with
             | Return chunk => Return (Some chunk)
             | Raise e => if is_JSONDecodeError e then Return None else Raise e
             end
      | None => Return None
      end
    else Raise UnicodeDecodeError
  end.

(** The chunks of a run of line results, up to the first exception. *)
Fixpoint collect (results : list (result (option value))) : result (list value) :=
  match results with
  | [] => Return []
  | Raise e :: _ => Raise e
  | Return o :: results' =>
    match collect results' with
    | Return chunks => Return (option_list o ++ chunks)
    | Raise e => Raise e
    end
  end.

(** Text that is no longer than either limit of the interpreter: it
    holds no integer of too many digits and no nesting too deep. *)
Definition within_limits (py : limits) (s : string) : bool :=
  ((String.length s <=? recursion_room py) &&
   ((int_max_str_digits py =? 0) ||
    (String.length s <=? int_max_str_digits py)))%nat.

(** A line that is empty, or [bytes] of ASCII within the limits. *)
Definition plain_line (py : limits) (l : line) : bool :=
  match l with
  | Bytes b =>
    forallb (λ c, (byte c <? 128)%N) (String.list_ascii_of_string b) &&
    within_limits py b
  | Str s => String.eqb s ""
  end.

(* ===================================================================== *)
(** ** Sample data                                                       *)
(* ===================================================================== *)

(** A rendering of values for the examples below. Python's [repr] agrees
    with it on [None], the booleans and the integers, which is all the
    examples render. *)
Definition repr_brief (v : value) : string :=
  match v with
  | VNone => "None"
  | VBool true => "True"
  | VBool false => "False"
  | VInt n => str_int n
  | VFloat lit => lit
  | VStr s => "'" +:+ s +:+ "'"
  | VList _ => "[...]"
  | VDict _ => "{...}"
  end.

(** The state of a run that has not done anything yet. *)
Definition empty_state : state := {| heap := []; trace := [] |}.

(** A response of the given status with the given outcome of [json()]. *)
Definition response_of (code : Z) (body : option value) : Response :=
  {| status_code := code; reason_phrase := "Error"; text := "Error message";
     json := match body with
             | Some v => Return v
             | None => Raise JSONDecodeError
             end;
     iter_lines := [] |}.

(** A response of the given status whose body is not text: [json()]
    raises [UnicodeDecodeError]. *)
Definition undecodable_response (code : Z) : Response :=
  {| status_code := code; reason_phrase := "Error"; text := "";
     json := Raise UnicodeDecodeError; iter_lines := [] |}.

(** [s] between double quotes. *)
Definition quoted (s : string) : string := String dq (s +:+ String dq "").

(** The five lines of the decoder example: a chunk, a blank line, a line
    that is not JSON, the sentinel, and a chunk after the sentinel. *)
Definition sample_lines : list string :=
  ["data: {" +:+ quoted "a" +:+ ":1}";
   "";
   "data: not-json";
   "data: [DONE]";
   "data: {" +:+ quoted "a" +:+ ":2}"].

(** The five lines as [httpx.Response.iter_lines()] hands them over, and
    as a response that yields [bytes] would. *)
Definition sample_text_stream : list line := Str <$> sample_lines.

Definition sample_stream : list line := Bytes <$> sample_lines.

(** A streaming response that delivers the given lines. *)
Definition stream_of (lines : list line) : Response :=
  {| status_code := 200; reason_phrase := "OK"; text := "";
     json := Raise JSONDecodeError; iter_lines := lines |}.

(** [s * n] *)
Fixpoint str_mul (s : string) (n : nat) : string :=
  match n with
  | O => ""
  | S n => s +:+ str_mul s n
  end.

(** An interpreter with tight limits: integers of up to 640 digits, the
    least limit that can be set, and room for two containers inside one
    another. *)
Definition tight : limits :=
  {| int_max_str_digits := 640; recursion_room := 2 |}.

(** An interpreter with the limits of a default installation: integers of
    up to 4300 digits, and room for some 990 nested containers. *)
Definition cpython : limits :=
  {| int_max_str_digits := 4300; recursion_room := 990 |}.

(** A server that answers every call with 200 and no body. *)
Definition always_ok (_ : Client) (_ : Call) : result Response :=
  Return (response_of 200 None).

(** The session of the unit tests, made in the empty state. *)
Definition sample_session : BaseApi :=
  {| base_url := "https://automation-qa-test.universeapps.limited";
     headers := 0%nat; client := Some 1%nat |}.

Definition sample_state : state :=
  (__init__ "https://automation-qa-test.universeapps.limited"
     (Some "dummy_token") empty_state).2.

(** A server that answers every call with 404 and a body that is not
    JSON. *)
Definition always_404 (_ : Client) (_ : Call) : result Response :=
  Return (response_of 404 None).

(** A transport that gives up before any answer. *)
Definition never_answers (_ : Client) (_ : Call) : result Response :=
  Raise (RuntimeError "timed out").

(** An object whose construction stopped before [client] was set. *)
Definition clientless_session : BaseApi :=
  {| base_url := "https://automation-qa-test.universeapps.limited";
     headers := 0%nat; client := None |}.

(** The sample session as a [ChatApi] object. *)
Definition sample_chat : ChatApi :=
  {| base := sample_session; default_headers := 0%nat |}.

(** One user message. *)
Definition sample_messages : list value :=
  [VDict [("role", VStr "user"); ("content", VStr "Tell me a short joke.")]].

(** The client of the sample session. *)
Definition sample_client : Client :=
  {| client_headers :=
       <["Authorization" := "Bearer dummy_token"]>
         (<["Accept-Encoding" := "gzip, deflate, br"]>
            {["Content-Type" := "application/json"]});
     timeout := 30; http2 := true; is_closed := false |}.

(* ===================================================================== *)
(** * Properties of the status checks                                    *)
(* ===================================================================== *)

Section StatusCheckFacts.

Variable repr : value → string.

(** The state after [response.json()] has been called once. *)
Local Abbreviation after_json σ :=
  {| heap := heap σ; trace := trace σ ++ [JsonCalled] |}.

(** The whole outcome of [check_status_code]: the status alone decides
    whether the body is decoded; an exception of [json()] other than
    [JSONDecodeError] leaves as it is, and otherwise the comparison decides
    between returning and raising. *)
Lemma check_status_code_run (r : Response) (c : Z) (σ : state) :
  check_status_code repr r c σ =
  (match diagnostic r with
   | Return error =>
     if status_code r =? c then Return tt
     else Raise (AssertionError
       ("Wrong response code. Expected = " +:+ str_int c +:+
        ", received = " +:+ str_int (status_code r) +:+
        " | error = " +:+ py_str repr error))
   | Raise e => Raise e
   end,
   if status_code r =? 200 then σ else after_json σ).
Proof.
  unfold check_status_code, parse_response_to_json, response_json, try_except,
    diagnostic, bind, assert_, log, ret, raise.
  destruct (status_code r =? 200); [| destruct (json r) as [v | []]]; simpl;
    destruct (status_code r =? c); reflexivity.
Qed.

(** The diagnostic of a response whose [json()] returns or raises
    [JSONDecodeError]. *)
Lemma diagnostic_handled (r : Response) :
  handled r = true →
  diagnostic r =
  Return (if status_code r =? 200 then VNone
          else match json r with
               | Return v => v
               | Raise _ => VStr "Unable to parse error"
               end).
Proof.
  unfold handled, diagnostic. intros Hh.
  destruct (status_code r =? 200); [reflexivity |].
  destruct (json r) as [v | e]; [reflexivity |]. rewrite Hh. reflexivity.
Qed.

(** C1 fails on a response whose body is not text. With a status other
    than 200, [json()] raises [UnicodeDecodeError], which line 132 does not
    catch: the check raises it whatever the expected code, also when the
    status is the expected one, and where the codes differ it is not the
    [AssertionError] of the mismatch. *)
Theorem check_status_code_body_not_text (c : Z) (σ : state) :
  check_status_code repr (undecodable_response 400) c σ =
  (Raise UnicodeDecodeError, after_json σ).
Proof. rewrite check_status_code_run. reflexivity. Qed.

(** C3, as the code has it. The body is decoded exactly when the status is
    not 200, before the comparison and whatever its outcome: a response
    whose status is not 200 and equals the expected code, and whose
    [json()] returns or raises [JSONDecodeError], makes the check return,
    after one call of [json()]. *)
Theorem check_status_code_decodes_unless_200 (r : Response) (c : Z) (σ : state) :
  trace (check_status_code repr r c σ).2 =
    trace σ ++ (if status_code r =? 200 then [] else [JsonCalled]) ∧
  (status_code r ≠ 200 → status_code r = c → handled r = true →
   check_status_code repr r c σ = (Return tt, after_json σ)).
Proof.
  rewrite check_status_code_run. split.
  - simpl. destruct (status_code r =? 200); simpl; [symmetry; apply app_nil_r | reflexivity].
  - intros H200 Hc Hh. rewrite (diagnostic_handled r Hh).
    apply Z.eqb_neq in H200. apply Z.eqb_eq in Hc. rewrite H200, Hc. reflexivity.
Qed.

(** C4. When the status is neither 200 nor the expected code and the body
    does not decode, the check raises the [AssertionError] of the mismatch,
    not the [JSONDecodeError], and the message ends with the placeholder. *)
Theorem check_status_code_undecodable (r : Response) (c : Z) (σ : state) :
  status_code r ≠ 200 → status_code r ≠ c → json r = Raise JSONDecodeError →
  (check_status_code repr r c σ).1 =
  Raise (AssertionError
    ("Wrong response code. Expected = " +:+ str_int c +:+
     ", received = " +:+ str_int (status_code r) +:+
     " | error = " +:+ "Unable to parse error")).
Proof.
  intros H200 Hc Hjson. rewrite check_status_code_run. unfold diagnostic. simpl.
  apply Z.eqb_neq in H200. apply Z.eqb_neq in Hc.
  rewrite H200, Hc, Hjson. reflexivity.
Qed.

(** C5. [check_status_code_success] returns exactly when the decimal form
    of the status starts with the digit 2, and raises an [AssertionError]
    with the status, the reason phrase and the body text otherwise; it
    touches nothing. It takes 200, 201, 204 and 299 and refuses 400, 404,
    500 and 101. *)
Theorem check_status_code_success_iff (r : Response) (σ : state) :
  ((check_status_code_success r σ).1 = Return tt ↔
   startswith (str_int (status_code r)) "2" = true) ∧
  (startswith (str_int (status_code r)) "2" = false →
   (check_status_code_success r σ).1 =
   Raise (AssertionError
     ("Response code = " +:+ str_int (status_code r) +:+
      ", error = " +:+ reason_phrase r +:+ " " +:+ text r))) ∧
  (check_status_code_success r σ).2 = σ ∧
  (λ code, (check_status_code_success (response_of code None) σ).1) <$>
    [200; 201; 204; 299] = [Return tt; Return tt; Return tt; Return tt] ∧
  (λ code, (check_status_code_success (response_of code None) σ).1) <$>
    [400; 404; 500; 101] =
    [Raise (AssertionError "Response code = 400, error = Error Error message");
     Raise (AssertionError "Response code = 404, error = Error Error message");
     Raise (AssertionError "Response code = 500, error = Error Error message");
     Raise (AssertionError "Response code = 101, error = Error Error message")].
Proof.
  split_and!; [| | | reflexivity | reflexivity];
    unfold check_status_code_success, assert_, ret, raise;
    destruct (startswith (str_int (status_code r)) "2"); simpl;
    try reflexivity; try discriminate; split; try discriminate; reflexivity.
Qed.

End StatusCheckFacts.

(** C3 as stated fails: expecting 400 and receiving 400, the check returns
    but it has called [json()] on the response. *)
Lemma check_status_code_match_calls_json :
  status_code (response_of 400 (Some (VDict [("error", VStr "Test error")]))) = 400 ∧
  check_status_code repr_brief
    (response_of 400 (Some (VDict [("error", VStr "Test error")]))) 400 empty_state =
    (Return tt, {| heap := []; trace := [JsonCalled] |}) ∧
  trace (check_status_code repr_brief
    (response_of 400 (Some (VDict [("error", VStr "Test error")]))) 400
    empty_state).2 ≠ trace empty_state.
Proof. split_and!; [reflexivity | reflexivity | discriminate]. Qed.

(** C3 at work: 400 received where 400 was expected, with a body that
    does not decode. *)
Lemma check_status_code_decodes_unless_200_witness :
  check_status_code repr_brief (response_of 400 None) 400 empty_state =
  (Return tt, {| heap := []; trace := [JsonCalled] |}).
Proof.
  apply (proj2 (check_status_code_decodes_unless_200 repr_brief
                  (response_of 400 None) 400 empty_state)).
  - vm_compute. discriminate.
  - reflexivity.
  - reflexivity.
Defined.

(** C4 at work, as in the unit test: 400 received where 200 was expected,
    with a body that does not decode. *)
Lemma check_status_code_undecodable_witness :
  (check_status_code repr_brief (response_of 400 None) 200 empty_state).1 =
  Raise (AssertionError
    "Wrong response code. Expected = 200, received = 400 | error = Unable to parse error").
Proof.
  apply (check_status_code_undecodable repr_brief (response_of 400 None) 200
           empty_state).
  - vm_compute. discriminate.
  - vm_compute. discriminate.
  - reflexivity.
Defined.

(** C5 at work, as in the unit tests: 404 is refused. *)
Lemma check_status_code_success_iff_witness :
  (check_status_code_success (response_of 404 None) empty_state).1 =
  Raise (AssertionError "Response code = 404, error = Error Error message").
Proof.
  apply (proj1 (proj2 (check_status_code_success_iff (response_of 404 None)
                         empty_state))).
  reflexivity.
Defined.

(** Among the codes of three digits, the accepted ones are 200 to 299. *)
Lemma success_three_digits (code : Z) :
  100 ≤ code ≤ 999 →
  (startswith (str_int code) "2" = true ↔ 200 ≤ code ≤ 299).
Proof.
  intros Hrange.
  assert (Hall : forallb (λ n : nat,
            bool_decide (startswith (str_int (100 + Z.of_nat n)) "2" =
                         ((200 <=? 100 + Z.of_nat n) && (100 + Z.of_nat n <=? 299))))
            (seq 0 900) = true) by (vm_compute; reflexivity).
  rewrite forallb_forall in Hall.
  specialize (Hall (Z.to_nat (code - 100))).
  rewrite Z2Nat.id in Hall by lia.
  replace (100 + (code - 100)) with code in Hall by lia.
  apply bool_decide_eq_true in Hall.
  - rewrite Hall. rewrite andb_true_iff, !Z.leb_le. tauto.
  - apply in_seq. lia.
Qed.

(* ===================================================================== *)
(** * Properties of [request]                                            *)
(* ===================================================================== *)

Section RequestFacts.

Variable repr : value → string.
Variable transport : Client → Call → result Response.

Lemma sent_calls_app (t1 t2 : list event) :
  sent_calls (t1 ++ t2) = sent_calls t1 ++ sent_calls t2.
Proof. unfold sent_calls. apply omap_app. Qed.

(** [check_status_code] makes no call and leaves the heap alone. *)
Lemma check_status_code_frame (r : Response) (c : Z) (σ : state) :
  heap (check_status_code repr r c σ).2 = heap σ ∧
  sent_calls (trace (check_status_code repr r c σ).2) = sent_calls (trace σ).
Proof.
  rewrite check_status_code_run. simpl.
  destruct (status_code r =? 200); simpl; [done |].
  split; [done |]. rewrite sent_calls_app. simpl. apply app_nil_r.
Qed.

(** A session that has a client makes exactly one call per [request],
    whatever comes back: to the base address followed by the path, with the
    headers chosen by [headers_or] and the keyword arguments left by
    [convert_data]. The heap is as it was. *)
Lemma request_sends (self : BaseApi) (c : loc) (method url : string)
  (hs : option (gmap string string)) (expected : option Z)
  (kwargs : gmap string value) (σ : state) :
  client self = Some c →
  sent_calls (trace (request repr transport self method url hs expected kwargs σ).2) =
  sent_calls (trace σ) ++
  [{| call_method := method;
      call_url := base_url self +:+ url;
      call_headers := headers_or hs (dict_at σ (headers self));
      call_kwargs := convert_data method kwargs |}] ∧
  heap (request repr transport self method url hs expected kwargs σ).2 = heap σ.
Proof.
  intros Hc.
  unfold request, self_headers, get_dict, self_client, client_request, bind, log, ret.
  rewrite Hc. simpl.
  destruct (client_at _ c) as [cl |]; simpl.
  - destruct (transport cl _) as [resp | e]; simpl.
    + destruct (status_given expected); simpl.
      * match goal with
        | |- context [check_status_code repr resp ?k ?s] =>
          pose proof (check_status_code_frame resp k s) as [Hheap Hsent];
          destruct (check_status_code repr resp k s) as [[[] | e] σ']
        end; simpl in *; rewrite Hsent, Hheap, sent_calls_app; done.
      * rewrite sent_calls_app. done.
    + rewrite sent_calls_app. done.
  - rewrite sent_calls_app. done.
Qed.

(** C6. On POST, PUT and PATCH with a [data] argument, a dict or a list
    goes out under the keyword [json] and no longer under [data], the other
    keyword arguments being kept; a string goes out under [data] as it
    came, with the keyword arguments untouched. *)
Theorem request_body_conversion (self : BaseApi) (c : loc) (method url : string)
  (hs : option (gmap string string)) (expected : option Z)
  (kwargs : gmap string value) (data : value) (σ : state) :
  client self = Some c →
  method ∈ ["POST"; "PUT"; "PATCH"] →
  kwargs !! "data" = Some data →
  ∃ sent : Call,
    sent_calls (trace (request repr transport self method url hs expected kwargs σ).2) =
      sent_calls (trace σ) ++ [sent] ∧
    (is_dict data = true ∨ is_list data = true →
     call_kwargs sent = <["json" := data]> (delete "data" kwargs) ∧
     call_kwargs sent !! "json" = Some data ∧
     call_kwargs sent !! "data" = None ∧
     ∀ k, k ≠ "json" → k ≠ "data" → call_kwargs sent !! k = kwargs !! k) ∧
    (is_str data = true →
     call_kwargs sent = kwargs ∧ call_kwargs sent !! "data" = Some data).
Proof.
  intros Hc Hm Hdata.
  destruct (request_sends self c method url hs expected kwargs σ Hc) as [Hsent _].
  eexists. split; [exact Hsent |]. simpl.
  unfold convert_data, body_bearing. rewrite bool_decide_eq_true_2 by done.
  rewrite Hdata. split.
  - intros Hkind.
    assert (Hconv : (is_dict data || is_list data) && negb (is_str data) = true)
      by (destruct data, Hkind; done).
    rewrite Hconv.
    assert (Heq : delete "data" (<["json" := data]> kwargs) =
                  <["json" := data]> (delete "data" kwargs))
      by (apply delete_insert_ne; done).
    rewrite Heq. split_and!.
    + done.
    + apply lookup_insert_eq.
    + rewrite lookup_insert_ne by done. apply lookup_delete_eq.
    + intros k Hj Hd. rewrite lookup_insert_ne, lookup_delete_ne; done.
  - intros Hstr. destruct data; try done.
Qed.


(** C10. An empty [headers] mapping is the same call as no [headers]
    argument: the request goes out with the header dict of the session. *)
Theorem request_empty_headers (self : BaseApi) (method url : string)
  (expected : option Z) (kwargs : gmap string value) (σ : state) :
  request repr transport self method url (Some ∅) expected kwargs σ =
  request repr transport self method url None expected kwargs σ ∧
  (∀ c : loc, client self = Some c →
   call_headers <$>
     sent_calls (trace (request repr transport self method url (Some ∅) expected kwargs σ).2) =
   (call_headers <$> sent_calls (trace σ)) ++ [dict_at σ (headers self)]).
Proof.
  split; [reflexivity |].
  intros c Hc.
  destruct (request_sends self c method url (Some ∅) expected kwargs σ Hc) as [-> _].
  rewrite fmap_app. reflexivity.
Qed.

End RequestFacts.

(** The header dict of the sample session. *)
Lemma sample_headers :
  dict_at sample_state (headers sample_session) =
  <["Authorization" := "Bearer dummy_token"]>
    (<["Accept-Encoding" := "gzip, deflate, br"]>
       {["Content-Type" := "application/json"]}).
Proof. vm_compute. reflexivity. Qed.


(** C6 at work, as in the unit tests: a dict posted as [data] leaves as
    [json]. *)
Lemma request_body_conversion_witness :
  ∃ sent : Call,
    sent_calls (trace (request repr_brief always_ok sample_session "POST"
                         "/post_endpoint" None None
                         {["data" := VDict [("key", VStr "value")]]}
                         sample_state).2) = [sent] ∧
    call_kwargs sent = {["json" := VDict [("key", VStr "value")]]}.
Proof.
  destruct (request_body_conversion repr_brief always_ok sample_session 1%nat
              "POST" "/post_endpoint" None None
              {["data" := VDict [("key", VStr "value")]]}
              (VDict [("key", VStr "value")]) sample_state)
    as (sent & Hsent & Hjson & _).
  - reflexivity.
  - apply list_elem_of_here.
  - apply lookup_singleton_eq.
  - exists sent. split; [exact Hsent |].
    destruct Hjson as (-> & _); [left; reflexivity |].
    rewrite delete_singleton_eq. reflexivity.
Defined.


(** C10 at work: an empty mapping supplied, the headers of the session
    sent. *)
Lemma request_empty_headers_witness :
  call_headers <$>
    sent_calls (trace (request repr_brief always_ok sample_session "GET" "/test"
                         (Some ∅) None ∅ sample_state).2) =
  [dict_at sample_state (headers sample_session)].
Proof.
  apply (proj2 (request_empty_headers repr_brief always_ok sample_session
                  "GET" "/test" None ∅ sample_state) 1%nat).
  reflexivity.
Defined.

(* ===================================================================== *)
(** * Properties of sessions                                             *)
(* ===================================================================== *)

(** [__init__] with the token of the unit tests makes the sample session. *)
Example init_sample :
  __init__ "https://automation-qa-test.universeapps.limited"
    (Some "dummy_token") empty_state = (Return sample_session, sample_state).
Proof. vm_compute. reflexivity. Qed.

(** The headers that [__init__] gives a session. *)
Lemma init_run (url : string) (token : option string) (σ : state) :
  let hs := if token_given token
            then <["Authorization" := "Bearer " +:+ default "" token]>
                   (<["Accept-Encoding" := "gzip, deflate, br"]>
                      {["Content-Type" := "application/json"]})
            else <["Accept-Encoding" := "gzip, deflate, br"]>
                   {["Content-Type" := "application/json"]} in
  __init__ url token σ =
  (Return {| base_url := url; headers := length (heap σ);
             client := Some (S (length (heap σ))) |},
   {| heap := heap σ ++
              [Dict hs;
               HttpClient {| client_headers := hs; timeout := 30; http2 := true;
                             is_closed := false |}];
      trace := trace σ |}).
Proof.
  unfold __init__, httpx_Client, get_dict, dict_setitem, alloc, bind, ret, dict_at.
  destruct (token_given token); simpl.
  - rewrite !lookup_app_r, Nat.sub_diag by (simpl; lia). simpl.
    rewrite insert_app_r_alt, Nat.sub_diag by lia. simpl.
    rewrite lookup_app_r, Nat.sub_diag by lia. simpl.
    rewrite length_app, Nat.add_1_r. simpl.
    rewrite <- app_assoc. reflexivity.
  - rewrite lookup_app_r, Nat.sub_diag by lia. simpl.
    rewrite length_app, Nat.add_1_r, <- app_assoc. reflexivity.
Qed.

Lemma string_app_inj (p s1 s2 : string) : p +:+ s1 = p +:+ s2 → s1 = s2.
Proof. induction p as [| a p IH]; simpl; [done |]. intros [= H]. auto. Qed.

(** Four objects at the end of a heap, by location. *)
Lemma heap_tail_lookup {A} (h : list A) (a b c d : A) :
  (h ++ [a; b; c; d]) !! length h = Some a ∧
  (h ++ [a; b; c; d]) !! S (length h) = Some b ∧
  (h ++ [a; b; c; d]) !! (length h + 2)%nat = Some c ∧
  (h ++ [a; b; c; d]) !! S (length h + 2) = Some d.
Proof.
  split_and!; rewrite lookup_app_r by lia.
  - by rewrite Nat.sub_diag.
  - by replace (S (length h) - length h)%nat with 1%nat by lia.
  - by replace (length h + 2 - length h)%nat with 2%nat by lia.
  - by replace (S (length h + 2) - length h)%nat with 3%nat by lia.
Qed.

Lemma heap_tail_insert {A} (h : list A) (a b c d x : A) :
  <[length h := x]> (h ++ [a; b; c; d]) = h ++ [x; b; c; d] ∧
  <[(length h + 2)%nat := x]> (h ++ [a; b; c; d]) = h ++ [a; b; x; d].
Proof.
  split.
  - rewrite insert_app_r_alt, Nat.sub_diag by lia. reflexivity.
  - rewrite insert_app_r. reflexivity.
Qed.

Lemma token_given_spec (t : string) : token_given (Some t) = true ↔ t ≠ "".
Proof.
  simpl. destruct (String.eqb_spec t ""); simpl; split; congruence.
Qed.

(** The [Authorization] entry that [__init__] makes for a token. *)
Lemma init_authorization (token : option string) :
  (if token_given token
   then <["Authorization" := "Bearer " +:+ default "" token]>
          (<["Accept-Encoding" := "gzip, deflate, br"]>
             {["Content-Type" := "application/json"]})
   else <["Accept-Encoding" := "gzip, deflate, br"]>
          ({["Content-Type" := "application/json"]} : gmap string string))
    !! "Authorization" =
  if token_given token then Some ("Bearer " +:+ default "" token) else None.
Proof.
  destruct (token_given token).
  - apply lookup_insert_eq.
  - rewrite lookup_insert_ne by done. apply lookup_singleton_ne. done.
Qed.

(** Two sessions side by side at the end of a heap: what is where, and
    what a write to either header dict changes. *)
Lemma two_sessions_layout (h : list object) (t : list event)
  (d1 d2 : gmap string string) (k1 k2 : Client) :
  let n := length h in
  let σ2 := {| heap := h ++ [Dict d1; HttpClient k1; Dict d2; HttpClient k2];
               trace := t |} in
  (dict_at σ2 n = d1 ∧ dict_at σ2 (n + 2) = d2 ∧
   client_at σ2 (S n) = Some k1 ∧ client_at σ2 (S (n + 2)) = Some k2) ∧
  (∀ d, let σ3 := {| heap := <[n := Dict d]> (heap σ2); trace := trace σ2 |} in
     dict_at σ3 n = d ∧ dict_at σ3 (n + 2) = d2 ∧
     client_at σ3 (S (n + 2)) = Some k2) ∧
  (∀ d, let σ3 := {| heap := <[(n + 2)%nat := Dict d]> (heap σ2); trace := trace σ2 |} in
     dict_at σ3 (n + 2) = d ∧ dict_at σ3 n = d1 ∧
     client_at σ3 (S n) = Some k1).
Proof.
  cbv zeta. unfold dict_at, client_at. cbn [heap trace].
  split; [| split].
  - destruct (heap_tail_lookup h (Dict d1) (HttpClient k1) (Dict d2) (HttpClient k2))
      as (L0 & L1 & L2 & L3).
    rewrite L0, L1, L2, L3. done.
  - intros d.
    rewrite (proj1 (heap_tail_insert h (Dict d1) (HttpClient k1) (Dict d2)
                      (HttpClient k2) (Dict d))).
    destruct (heap_tail_lookup h (Dict d) (HttpClient k1) (Dict d2) (HttpClient k2))
      as (L0 & _ & L2 & L3).
    rewrite L0, L2, L3. done.
  - intros d.
    rewrite (proj2 (heap_tail_insert h (Dict d1) (HttpClient k1) (Dict d2)
                      (HttpClient k2) (Dict d))).
    destruct (heap_tail_lookup h (Dict d1) (HttpClient k1) (Dict d) (HttpClient k2))
      as (L0 & L1 & L2 & _).
    rewrite L0, L1, L2. done.
Qed.

(** C8. Two sessions made one after the other from different tokens have
    different [Authorization] entries (the entry of a session is [Bearer]
    and its token; an empty token gives no entry). Their header dicts and
    their clients are four different objects, and putting anything in the
    place of the header dict of one, or setting an entry of it, leaves the
    header dict and the client of the other as they were. *)
Theorem sessions_independent (url1 url2 t1 t2 : string) (σ : state) :
  t1 ≠ t2 →
  ∃ (s1 s2 : BaseApi) (σ1 σ2 : state) (c1 c2 : loc),
    __init__ url1 (Some t1) σ = (Return s1, σ1) ∧
    __init__ url2 (Some t2) σ1 = (Return s2, σ2) ∧
    client s1 = Some c1 ∧ client s2 = Some c2 ∧
    dict_at σ2 (headers s1) !! "Authorization" ≠
      dict_at σ2 (headers s2) !! "Authorization" ∧
    (t1 ≠ "" → dict_at σ2 (headers s1) !! "Authorization" = Some ("Bearer " +:+ t1)) ∧
    (t2 ≠ "" → dict_at σ2 (headers s2) !! "Authorization" = Some ("Bearer " +:+ t2)) ∧
    NoDup [headers s1; c1; headers s2; c2] ∧
    is_Some (client_at σ2 c1) ∧ is_Some (client_at σ2 c2) ∧
    (∀ d : gmap string string,
       let σ3 := {| heap := <[headers s1 := Dict d]> (heap σ2); trace := trace σ2 |} in
       dict_at σ3 (headers s1) = d ∧
       dict_at σ3 (headers s2) = dict_at σ2 (headers s2) ∧
       client_at σ3 c2 = client_at σ2 c2) ∧
    (∀ d : gmap string string,
       let σ3 := {| heap := <[headers s2 := Dict d]> (heap σ2); trace := trace σ2 |} in
       dict_at σ3 (headers s2) = d ∧
       dict_at σ3 (headers s1) = dict_at σ2 (headers s1) ∧
       client_at σ3 c1 = client_at σ2 c1) ∧
    (∀ k v : string,
       dict_at (dict_setitem (headers s1) k v σ2).2 (headers s1) =
         <[k := v]> (dict_at σ2 (headers s1)) ∧
       dict_at (dict_setitem (headers s1) k v σ2).2 (headers s2) =
         dict_at σ2 (headers s2)).
Proof.
  intros Hne.
  pose proof (init_run url1 (Some t1) σ) as H1. cbv zeta in H1.
  match type of H1 with
  | context [Dict ?m] => set (hs1 := m) in H1; pose proof (init_authorization (Some t1)) as A1
  end.
  fold hs1 in A1.
  match type of H1 with _ = (_, ?s) => pose proof (init_run url2 (Some t2) s) as H2 end.
  cbv zeta in H2.
  match type of H2 with
  | context [Dict ?m] =>
    lazymatch m with
    | hs1 => fail
    | _ => set (hs2 := m) in H2; pose proof (init_authorization (Some t2)) as A2
    end
  end.
  fold hs2 in A2.
  eexists _, _, _, _, _, _.
  split; [exact H1 |]. split; [exact H2 |]. clear H1 H2.
  split; [reflexivity |]. split; [reflexivity |].
  cbn [headers client heap trace].
  rewrite length_app. cbn [length]. rewrite <- !app_assoc. cbn [app].
  match goal with
  | |- context [HttpClient ?k1 :: Dict hs2 :: HttpClient ?k2 :: nil] =>
    destruct (two_sessions_layout (heap σ) (trace σ) hs1 hs2 k1 k2)
      as ((D1 & D2 & C1 & C2) & F1 & F2)
  end.
  cbv zeta in F1, F2. cbn [heap trace] in F1, F2.
  unfold dict_setitem. cbn [snd].
  rewrite D1, D2, C1, C2, A1, A2. clear A1 A2.
  split_and!.
  - destruct (token_given (Some t1)) eqn:G1, (token_given (Some t2)) eqn:G2;
      try discriminate.
    + intros [= Heq]. apply string_app_inj in Heq. contradiction.
    + apply not_true_iff_false in G1, G2.
      rewrite token_given_spec in G1, G2.
      apply dec_stable in G1, G2. congruence.
  - intros Ht. apply token_given_spec in Ht. rewrite Ht. reflexivity.
  - intros Ht. apply token_given_spec in Ht. rewrite Ht. reflexivity.
  - repeat (apply NoDup_cons_2;
              [rewrite ?elem_of_cons, ?elem_of_nil; lia |]).
    apply NoDup_nil_2.
  - eauto.
  - eauto.
  - intros d. cbv zeta. cbn [heap trace]. destruct (F1 d) as (-> & -> & ->). done.
  - intros d. cbv zeta. cbn [heap trace]. destruct (F2 d) as (-> & -> & ->). done.
  - intros k v. cbn [heap trace]. destruct (F1 (<[k := v]> hs1)) as (-> & -> & _). done.
Qed.

(** C8 at work: the session of the unit tests and one made with the
    invalid token of the configuration. *)
Lemma sessions_independent_witness :
  ∃ (s1 s2 : BaseApi) (σ1 σ2 : state),
    __init__ "https://automation-qa-test.universeapps.limited"
      (Some "dummy_token") empty_state = (Return s1, σ1) ∧
    __init__ "https://automation-qa-test.universeapps.limited"
      (Some "invalid_token") σ1 = (Return s2, σ2) ∧
    headers s1 ≠ headers s2 ∧
    dict_at σ2 (headers s1) !! "Authorization" = Some "Bearer dummy_token" ∧
    dict_at σ2 (headers s2) !! "Authorization" = Some "Bearer invalid_token".
Proof.
  destruct (sessions_independent
              "https://automation-qa-test.universeapps.limited"
              "https://automation-qa-test.universeapps.limited"
              "dummy_token" "invalid_token" empty_state)
    as (s1 & s2 & σ1 & σ2 & c1 & c2 & H1 & H2 & _ & _ & _ & A1 & A2 & Hnd & _).
  - discriminate.
  - exists s1, s2, σ1, σ2. split_and!; try done.
    + apply NoDup_cons_1_1 in Hnd. intros Heq. apply Hnd. rewrite Heq.
      apply elem_of_cons. right. apply elem_of_cons. left. reflexivity.
    + apply A1. discriminate.
    + apply A2. discriminate.
Defined.

(** After [close()] on a client that is there, the client is closed. *)
Lemma Client_close_closed (c : loc) (cl : Client) (σ : state) :
  client_at σ c = Some cl →
  ∃ cl', client_at (Client_close c σ).2 c = Some cl' ∧ is_closed cl' = true.
Proof.
  intros Hc. unfold Client_close. rewrite Hc.
  destruct (is_closed cl) eqn:Hcl; simpl.
  - exists cl. done.
  - unfold client_at in *. simpl.
    destruct (heap σ !! c) as [o |] eqn:Hlook; [| done].
    rewrite list_lookup_insert_eq by (eapply lookup_lt_Some; eassumption).
    eexists. split; reflexivity.
Qed.

(** C9. [__del__] returns, and so does a second [__del__] after it, which
    changes nothing: the pool is released by the first one and the second
    one finds the client closed. On an object that has no [client]
    attribute [__del__] does nothing at all. *)
Theorem del_twice (self : BaseApi) (σ : state) :
  (__del__ self σ).1 = Return tt ∧
  (__del__ self (__del__ self σ).2).1 = Return tt ∧
  (__del__ self (__del__ self σ).2).2 = (__del__ self σ).2 ∧
  (client self = None → __del__ self σ = (Return tt, σ)).
Proof.
  unfold __del__, hasattr_client, self_client.
  destruct (client self) as [c |]; [| done].
  unfold bind, ret. simpl.
  assert (Hret : ∀ s, (Client_close c s).1 = Return tt).
  { intros s. unfold Client_close.
    destruct (client_at s c) as [cl |]; [destruct (is_closed cl) |]; done. }
  split_and!; [apply Hret | apply Hret | | done].
  destruct (client_at σ c) as [cl |] eqn:Hc.
  - destruct (Client_close_closed c cl σ Hc) as (cl' & Hc' & Hclosed).
    unfold Client_close at 1. rewrite Hc', Hclosed. reflexivity.
  - unfold Client_close. rewrite Hc. simpl. rewrite Hc. reflexivity.
Qed.

(** The sample session: the first [__del__] releases its pool, the second
    adds nothing to the trace. *)
Lemma del_twice_sample :
  trace (__del__ sample_session sample_state).2 = [PoolReleased 1%nat] ∧
  trace (__del__ sample_session (__del__ sample_session sample_state).2).2 =
    [PoolReleased 1%nat].
Proof. split; vm_compute; reflexivity. Qed.

(** C9 at work on an object without a [client] attribute. *)
Lemma del_twice_witness :
  __del__ {| base_url := "https://automation-qa-test.universeapps.limited";
             headers := 0%nat; client := None |} sample_state =
  (Return tt, sample_state).
Proof.
  apply (proj2 (proj2 (proj2 (del_twice
    {| base_url := "https://automation-qa-test.universeapps.limited";
       headers := 0%nat; client := None |} sample_state)))).
  reflexivity.
Defined.

(* ===================================================================== *)
(** * Properties of the JSON scanner                                     *)
(* ===================================================================== *)

(** The decoder on small documents: nesting, a repeated key, white space,
    the number forms, escapes with a surrogate pair, and documents that do
    not decode. *)
Example json_loads_nested :
  json_loads cpython
    (" { " +:+ quoted "k" +:+ " : [1, -2.5e3, true, null, {}, [ ]], " +:+
     quoted "b" +:+ ":0 , " +:+ quoted "k" +:+ ": false} ") =
  Return (VDict [("k", VBool false); ("b", VInt 0)]).
Proof. vm_compute. reflexivity. Qed.

Example json_loads_numbers :
  json_loads cpython <$> ["0"; "-0"; "-12"; "1e+5"; "01"; "1."; "-"; "+1"; ".5"] =
  [Return (VInt 0); Return (VInt 0); Return (VInt (-12)); Return (VFloat "1e+5");
   Raise JSONDecodeError; Raise JSONDecodeError; Raise JSONDecodeError;
   Raise JSONDecodeError; Raise JSONDecodeError].
Proof. vm_compute. reflexivity. Qed.

Example json_loads_escapes :
  json_loads cpython (quoted "a\u00e9\ud83d\ude00\n") =
  Return (VStr ("a" +:+ String "195" (String "169" "") +:+
                String "240" (String "159" (String "152" (String "128" ""))) +:+
                String "010" "")).
Proof. vm_compute. reflexivity. Qed.

Example json_loads_invalid :
  json_loads cpython <$> [""; "not-json"; "[1,]"; "{"; "[DONE]"; "{} x"; "nul"] =
  [Raise JSONDecodeError; Raise JSONDecodeError; Raise JSONDecodeError;
   Raise JSONDecodeError; Raise JSONDecodeError; Raise JSONDecodeError;
   Raise JSONDecodeError].
Proof. vm_compute. reflexivity. Qed.

(** The limits of the interpreter: an integer of more digits than it
    converts is [ValueError], also inside a container and with a sign,
    while a float of that length is read; containers nested deeper than
    there is room for are [RecursionError], whether closed or not. *)
Example json_loads_limits :
  json_loads tight <$>
    [str_mul "1" 640; str_mul "1" 641; "-" +:+ str_mul "1" 641;
     "[" +:+ str_mul "1" 641 +:+ "]"; str_mul "1" 641 +:+ ".5";
     "[[1]]"; "[[[1]]]"; "[[["] =
  [Return (VInt (int_of_digits (str_mul "1" 640) 0)); Raise ValueError;
   Raise ValueError; Raise ValueError;
   Return (VFloat (str_mul "1" 641 +:+ ".5")); Return (VList [VList [VInt 1]]);
   Raise RecursionError; Raise RecursionError].
Proof. vm_compute. reflexivity. Qed.

Example json_loads_limits_cpython :
  json_loads cpython <$> [str_mul "1" 4301; str_mul "[" 1000] =
  [Raise ValueError; Raise RecursionError].
Proof. vm_compute. reflexivity. Qed.

(** Bytes that are not UTF-8 do not decode: a lone continuation byte, an
    overlong form, an encoded surrogate. *)
Example decode_utf8_invalid :
  decode_utf8 <$> [String "128" ""; String "192" (String "175" "");
                   String "237" (String "160" (String "128" ""))] =
  [None; None; None].
Proof. vm_compute. reflexivity. Qed.

(** A line that is not UTF-8 stops the decoding with the error of
    [decode]. *)
Example parse_stream_data_not_utf8 :
  parse_stream_data cpython
    (stream_of (Bytes <$> ["data: 1"; String "255" ""; "data: 2"])) =
  Raise UnicodeDecodeError.
Proof. vm_compute. reflexivity. Qed.

Section ScannerFuel.

Variable py : limits.

Local Open Scope nat_scope.

Lemma next_is_length (c : ascii) (s r : string) :
  next_is c s = Some r → String.length s = S (String.length r).
Proof.
  destruct s as [| c' s']; simpl; [done |].
  destruct (c' =? c)%char; [| done]. by intros [= ->].
Qed.

Lemma skip_ws_length (s : string) : String.length (skip_ws s) ≤ String.length s.
Proof.
  induction s as [| c s IH]; simpl; [done |].
  destruct (is_ws c); simpl; lia.
Qed.

Lemma scanstring_length (s acc str r : string) :
  scanstring s acc = Some (str, r) → String.length r < String.length s.
Proof.
  remember (String.length s) as n eqn:Hn.
  assert (Hle : String.length s ≤ n) by lia. clear Hn.
  revert s acc Hle.
  induction n as [| n IH]; intros s acc Hle; (destruct s as [| c s1]; [done |]).
  { simpl in Hle. lia. }
  simpl in Hle. cbn [scanstring].
  repeat match goal with
         | |- context [match ?x with _ => _ end] => destruct x
         end;
    try done;
    try (intros [= _ ->]; simpl; lia);
    intros H; apply IH in H; simpl in *; lia.
Qed.

Lemma digits_length (s ds r : string) :
  digits s = (ds, r) → String.length r ≤ String.length s.
Proof.
  revert ds r. induction s as [| c s IH]; simpl; intros ds r.
  - intros [= _ <-]. done.
  - destruct (is_digit c).
    + destruct (digits s) as [ds' r']. intros [= _ <-].
      specialize (IH _ _ eq_refl). lia.
    + intros [= _ <-]. done.
Qed.

Lemma match_integer_length (s : string) (neg : bool) (ds r : string) :
  match_integer s = Some (neg, ds, r) → String.length r < String.length s.
Proof.
  unfold match_integer.
  destruct (next_is "-" s) as [s1 |] eqn:Hm.
  - apply next_is_length in Hm. rewrite Hm.
    destruct s1 as [| c s2]; [done |].
    destruct (c =? "0")%char; [intros [= _ _ <-]; simpl; lia |].
    destruct (is_digit c); [| done].
    destruct (digits s2) as [ds' r'] eqn:Hd. apply digits_length in Hd.
    intros [= _ _ <-]. simpl. lia.
  - destruct s as [| c s2]; [done |].
    destruct (c =? "0")%char; [intros [= _ _ <-]; simpl; lia |].
    destruct (is_digit c); [| done].
    destruct (digits s2) as [ds' r'] eqn:Hd. apply digits_length in Hd.
    intros [= _ _ <-]. simpl. lia.
Qed.

Lemma match_frac_length (s f r : string) :
  match_frac s = (f, r) → String.length r ≤ String.length s.
Proof.
  unfold match_frac.
  destruct (next_is "." s) as [s1 |] eqn:Hm; [| by intros [= _ <-]].
  apply next_is_length in Hm.
  destruct (digits s1) as [ds r'] eqn:Hd. apply digits_length in Hd.
  destruct ds; intros [= _ <-]; lia.
Qed.

Lemma match_exp_length (s e r : string) :
  match_exp s = (e, r) → String.length r ≤ String.length s.
Proof.
  unfold match_exp.
  destruct s as [| c s1]; [by intros [= _ <-] |].
  destruct (_ || _)%bool; [| by intros [= _ <-]].
  destruct (next_is "-" s1) as [r1 |] eqn:Hminus;
    [| destruct (next_is "+" s1) as [r1 |] eqn:Hplus];
    try apply next_is_length in Hminus; try apply next_is_length in Hplus;
    match goal with
    | |- context [digits ?x] => destruct (digits x) as [ds r'] eqn:Hd
    end;
    apply digits_length in Hd; destruct ds; intros [= _ <-]; simpl; lia.
Qed.

Lemma match_number_length (s : string) (v : result value) (r : string) :
  match_number py s = Some (v, r) → String.length r < String.length s.
Proof.
  unfold match_number.
  destruct (match_integer s) as [[[neg ds] r0] |] eqn:Hi; [| done].
  apply match_integer_length in Hi.
  destruct (match_frac r0) as [f r1] eqn:Hf. apply match_frac_length in Hf.
  destruct (match_exp r1) as [e r2] eqn:He. apply match_exp_length in He.
  destruct (_ && _); intros [= _ <-]; lia.
Qed.

Lemma strip_prefix_length (p s r : string) :
  strip_prefix p s = Some r → String.length s = String.length p + String.length r.
Proof.
  revert s. induction p as [| a p IH]; intros s; simpl.
  - by intros [= ->].
  - destruct s as [| b s]; [done |]. destruct (a =? b)%char; [| done].
    intros H. apply IH in H. simpl. lia.
Qed.

Lemma scan_atom_length (s : string) :
  scan_atom py s ≠ NoFuel ∧
  ∀ v r, scan_atom py s = Scanned v r → String.length r < String.length s.
Proof.
  unfold scan_atom.
  repeat match goal with
         | |- context [strip_prefix ?p s] =>
           let H := fresh "H" in
           destruct (strip_prefix p s) eqn:H;
           [apply strip_prefix_length in H; simpl in H;
            split; [done | intros ? ? [= _ <-]; lia] |]
         | |- context [match_number py s] =>
           let H := fresh "H" in
           destruct (match_number py s) as [[[? | ?] ?] |] eqn:H;
           [apply match_number_length in H;
            split; [done | intros ? ? [= _ <-]; lia] | split; done |]
         end.
  split; done.
Qed.

Lemma scan_fuel (fuel : nat) :
  (∀ room s,
     (∀ v r, scan_once py fuel room s = Scanned v r →
             String.length r < String.length s) ∧
     (2 * String.length s + 1 ≤ fuel → scan_once py fuel room s ≠ NoFuel)) ∧
  (∀ room items s,
     (∀ v r, array_items py fuel room items s = Scanned v r →
             String.length r < String.length s) ∧
     (2 * String.length s + 2 ≤ fuel → array_items py fuel room items s ≠ NoFuel)) ∧
  (∀ room pairs s,
     (∀ v r, object_pairs py fuel room pairs s = Scanned v r →
             String.length r < String.length s) ∧
     (2 * String.length s + 2 ≤ fuel → object_pairs py fuel room pairs s ≠ NoFuel)).
Proof.
  induction fuel as [| fuel (IHs & IHa & IHo)].
  { split_and!; intros; (split; [done | simpl; lia]). }
  split_and!.
  - intros room s. cbn [scan_once].
    destruct (next_is dq s) as [s1 |] eqn:Hq.
    { apply next_is_length in Hq.
      destruct (scanstring s1 "") as [[str r'] |] eqn:Hs; [| done].
      apply scanstring_length in Hs.
      split; [intros v r [= _ <-]; lia | done]. }
    destruct (next_is "{" s) as [s1 |] eqn:Hbrace.
    { destruct room as [| room]; [done |].
      apply next_is_length in Hbrace.
      pose proof (skip_ws_length s1) as Hws.
      destruct (next_is "}" (skip_ws s1)) as [r' |] eqn:Hclose.
      { apply next_is_length in Hclose.
        split; [intros v r [= _ <-]; lia | done]. }
      destruct (next_is dq (skip_ws s1)) as [r' |] eqn:Hkey; [| done].
      apply next_is_length in Hkey.
      destruct (IHo room [] r') as [Hlen Hfuel].
      split; [intros v r H; apply Hlen in H; lia | intros Hf; apply Hfuel; lia]. }
    destruct (next_is "[" s) as [s1 |] eqn:Hbracket.
    { destruct room as [| room]; [done |].
      apply next_is_length in Hbracket.
      pose proof (skip_ws_length s1) as Hws.
      destruct (next_is "]" (skip_ws s1)) as [r' |] eqn:Hclose.
      { apply next_is_length in Hclose.
        split; [intros v r [= _ <-]; lia | done]. }
      destruct (IHa room [] (skip_ws s1)) as [Hlen Hfuel].
      split; [intros v r H; apply Hlen in H; lia | intros Hf; apply Hfuel; lia]. }
    destruct (scan_atom_length s) as [Hnf Hlen]. split; [exact Hlen | done].
  - intros room items s. cbn [array_items].
    destruct (IHs room s) as [Hlen Hfuel].
    destruct (scan_once py fuel room s) as [v0 r0 | | e |] eqn:Hscan.
    + specialize (Hlen _ _ eq_refl).
      pose proof (skip_ws_length r0) as Hws.
      destruct (next_is "]" (skip_ws r0)) as [r' |] eqn:Hclose.
      { apply next_is_length in Hclose.
        split; [intros v r [= _ <-]; lia | done]. }
      destruct (next_is "," (skip_ws r0)) as [r' |] eqn:Hcomma; [| done].
      apply next_is_length in Hcomma.
      pose proof (skip_ws_length r') as Hws'.
      destruct (IHa room (items ++ [v0]) (skip_ws r')) as [Hlen' Hfuel'].
      split; [intros v r H; apply Hlen' in H; lia | intros Hf; apply Hfuel'; lia].
    + done.
    + done.
    + split; [done |]. intros Hf _. apply Hfuel; [lia | done].
  - intros room pairs s. cbn [object_pairs].
    destruct (scanstring s "") as [[key r0] |] eqn:Hs; [| done].
    apply scanstring_length in Hs.
    pose proof (skip_ws_length r0) as Hws0.
    destruct (next_is ":" (skip_ws r0)) as [r1 |] eqn:Hcolon; [| done].
    apply next_is_length in Hcolon.
    pose proof (skip_ws_length r1) as Hws1.
    destruct (IHs room (skip_ws r1)) as [Hlen Hfuel].
    destruct (scan_once py fuel room (skip_ws r1)) as [v0 r2 | | e |] eqn:Hscan.
    + specialize (Hlen _ _ eq_refl).
      pose proof (skip_ws_length r2) as Hws2.
      destruct (next_is "}" (skip_ws r2)) as [r3 |] eqn:Hclose.
      { apply next_is_length in Hclose.
        split; [intros v r [= _ <-]; lia | done]. }
      destruct (next_is "," (skip_ws r2)) as [r3 |] eqn:Hcomma; [| done].
      apply next_is_length in Hcomma.
      pose proof (skip_ws_length r3) as Hws3.
      destruct (next_is dq (skip_ws r3)) as [r4 |] eqn:Hkey; [| done].
      apply next_is_length in Hkey.
      destruct (IHo room (pairs ++ [(key, v0)]) r4) as [Hlen' Hfuel'].
      split; [intros v r H; apply Hlen' in H; lia | intros Hf; apply Hfuel'; lia].
    + done.
    + done.
    + split; [done |]. intros Hf _. apply Hfuel; [lia | done].
Qed.

(** [json_loads] never runs out of fuel. *)
Lemma json_loads_fuel (s : string) :
  scan_once py (fuel_for s) (recursion_room py) (skip_ws s) ≠ NoFuel.
Proof.
  apply (scan_fuel (fuel_for s)). unfold fuel_for.
  pose proof (skip_ws_length s). lia.
Qed.

(** More fuel does not change an outcome that did not need it. *)
Lemma scan_more_fuel (fuel : nat) :
  (∀ room s, scan_once py fuel room s ≠ NoFuel →
             scan_once py (S fuel) room s = scan_once py fuel room s) ∧
  (∀ room items s, array_items py fuel room items s ≠ NoFuel →
     array_items py (S fuel) room items s = array_items py fuel room items s) ∧
  (∀ room pairs s, object_pairs py fuel room pairs s ≠ NoFuel →
     object_pairs py (S fuel) room pairs s = object_pairs py fuel room pairs s).
Proof.
  induction fuel as [| fuel (IHs & IHa & IHo)]; [split_and!; intros; done |].
  split_and!.
  - intros room s. cbn [scan_once].
    destruct (next_is dq s); [done |].
    destruct (next_is "{" s) as [s1 |].
    { destruct room as [| room]; [done |].
      destruct (next_is "}" (skip_ws s1)); [done |].
      destruct (next_is dq (skip_ws s1)); [apply IHo | done]. }
    destruct (next_is "[" s) as [s1 |]; [| done].
    destruct room as [| room]; [done |].
    destruct (next_is "]" (skip_ws s1)); [done | apply IHa].
  - intros room items s. cbn [array_items]. intros Hnf.
    rewrite IHs by (intros Hs; rewrite Hs in Hnf; done).
    destruct (scan_once py fuel room s) as [v0 r0 | | e |]; [| done | done | done].
    destruct (next_is "]" (skip_ws r0)); [done |].
    destruct (next_is "," (skip_ws r0)); [apply IHa; done | done].
  - intros room pairs s. cbn [object_pairs]. intros Hnf.
    destruct (scanstring s "") as [[key r0] |]; [| done].
    destruct (next_is ":" (skip_ws r0)) as [r1 |]; [| done].
    rewrite IHs by (intros Hs; rewrite Hs in Hnf; done).
    destruct (scan_once py fuel room (skip_ws r1)) as [v0 r2 | | e |];
      [| done | done | done].
    destruct (next_is "}" (skip_ws r2)); [done |].
    destruct (next_is "," (skip_ws r2)) as [r3 |]; [| done].
    destruct (next_is dq (skip_ws r3)); [apply IHo; done | done].
Qed.

(** The fuel of [json_loads] is enough for any document: with more of it
    the scan gives the same outcome. *)
Lemma json_loads_fuel_enough (s : string) (extra : nat) :
  scan_once py (fuel_for s) (recursion_room py) (skip_ws s) ≠ NoFuel ∧
  scan_once py (extra + fuel_for s) (recursion_room py) (skip_ws s) =
  scan_once py (fuel_for s) (recursion_room py) (skip_ws s).
Proof.
  split; [apply json_loads_fuel |].
  induction extra as [| extra IH]; [done |].
  cbn [Nat.add]. rewrite <- IH.
  apply (scan_more_fuel (extra + fuel_for s)).
  rewrite IH. apply json_loads_fuel.
Qed.

(** [json.loads] raises nothing but the three exceptions of the decoder:
    [JSONDecodeError], [ValueError] and [RecursionError]. *)
Lemma int_of_literal_raises (neg : bool) (ds : string) (e : exn) :
  int_of_literal py neg ds = Raise e → e = ValueError.
Proof. unfold int_of_literal. destruct (_ && _)%bool; [by intros [= <-] | done]. Qed.

Lemma scan_atom_raises (s : string) (e : exn) :
  scan_atom py s = Raised e → e = ValueError.
Proof.
  unfold scan_atom, match_number.
  do 3 (match goal with
        | |- context [strip_prefix ?p s] => destruct (strip_prefix p s); [done |]
        end).
  destruct (match_integer s) as [[[neg ds] r0] |];
    [| repeat match goal with
              | |- context [strip_prefix ?p s] => destruct (strip_prefix p s); [done |]
              end; done].
  destruct (match_frac r0) as [f r1]. destruct (match_exp r1) as [x r2].
  destruct (_ && _)%bool; [| done].
  destruct (int_of_literal py neg ds) as [v | e'] eqn:Hint; [done |].
  apply int_of_literal_raises in Hint. by intros [= <-].
Qed.

Lemma scan_raises (fuel : nat) :
  (∀ room s e, scan_once py fuel room s = Raised e →
               e = ValueError ∨ e = RecursionError) ∧
  (∀ room items s e, array_items py fuel room items s = Raised e →
               e = ValueError ∨ e = RecursionError) ∧
  (∀ room pairs s e, object_pairs py fuel room pairs s = Raised e →
               e = ValueError ∨ e = RecursionError).
Proof.
  induction fuel as [| fuel (IHs & IHa & IHo)]; [split_and!; intros; done |].
  split_and!.
  - intros room s e. cbn [scan_once].
    destruct (next_is dq s) as [s1 |].
    { destruct (scanstring s1 "") as [[str r'] |]; done. }
    destruct (next_is "{" s) as [s1 |].
    { destruct room as [| room]; [intros [= <-]; by right |].
      destruct (next_is "}" (skip_ws s1)); [done |].
      destruct (next_is dq (skip_ws s1)); [apply IHo | done]. }
    destruct (next_is "[" s) as [s1 |].
    { destruct room as [| room]; [intros [= <-]; by right |].
      destruct (next_is "]" (skip_ws s1)); [done | apply IHa]. }
    intros H. left. by apply (scan_atom_raises s).
  - intros room items s e. cbn [array_items].
    destruct (scan_once py fuel room s) as [v0 r0 | | e0 |] eqn:Hscan;
      [| done | intros [= <-]; by eapply IHs | done].
    destruct (next_is "]" (skip_ws r0)); [done |].
    destruct (next_is "," (skip_ws r0)); [apply IHa | done].
  - intros room pairs s e. cbn [object_pairs].
    destruct (scanstring s "") as [[key r0] |]; [| done].
    destruct (next_is ":" (skip_ws r0)) as [r1 |]; [| done].
    destruct (scan_once py fuel room (skip_ws r1)) as [v0 r2 | | e0 |] eqn:Hscan;
      [| done | intros [= <-]; by eapply IHs | done].
    destruct (next_is "}" (skip_ws r2)); [done |].
    destruct (next_is "," (skip_ws r2)) as [r3 |]; [| done].
    destruct (next_is dq (skip_ws r3)); [apply IHo | done].
Qed.

(** Text within the limits raises neither of the two. *)
Lemma digits_run_length (s ds r : string) :
  digits s = (ds, r) → String.length ds ≤ String.length s.
Proof.
  revert ds r. induction s as [| c s IH]; simpl; intros ds r.
  - intros [= <- _]. done.
  - destruct (is_digit c).
    + destruct (digits s) as [ds' r']. intros [= <- _].
      specialize (IH _ _ eq_refl). simpl. lia.
    + intros [= <- _]. simpl. lia.
Qed.

Lemma match_integer_digits (s : string) (neg : bool) (ds r : string) :
  match_integer s = Some (neg, ds, r) → String.length ds ≤ String.length s.
Proof.
  unfold match_integer.
  destruct (next_is "-" s) as [s1 |] eqn:Hm.
  - apply next_is_length in Hm. rewrite Hm.
    destruct s1 as [| c s2]; [done |].
    destruct (c =? "0")%char; [intros [= _ <- _]; simpl; lia |].
    destruct (is_digit c); [| done].
    destruct (digits s2) as [ds' r'] eqn:Hd. apply digits_run_length in Hd.
    intros [= _ <- _]. simpl. lia.
  - destruct s as [| c s2]; [done |].
    destruct (c =? "0")%char; [intros [= _ <- _]; simpl; lia |].
    destruct (is_digit c); [| done].
    destruct (digits s2) as [ds' r'] eqn:Hd. apply digits_run_length in Hd.
    intros [= _ <- _]. simpl. lia.
Qed.

(** No integer of [s] has too many digits. *)
Local Abbreviation digits_fit s :=
  (int_max_str_digits py = 0 ∨ String.length s ≤ int_max_str_digits py).

Lemma scan_atom_fits (s : string) (e : exn) :
  digits_fit s → scan_atom py s ≠ Raised e.
Proof.
  intros Hfit. unfold scan_atom, match_number.
  do 3 (match goal with
        | |- context [strip_prefix ?p s] => destruct (strip_prefix p s); [done |]
        end).
  destruct (match_integer s) as [[[neg ds] r0] |] eqn:Hint;
    [| repeat match goal with
              | |- context [strip_prefix ?p s] => destruct (strip_prefix p s); [done |]
              end; done].
  apply match_integer_digits in Hint.
  destruct (match_frac r0) as [f r1]. destruct (match_exp r1) as [x r2].
  destruct (_ && _)%bool; [| done].
  unfold int_of_literal.
  destruct (0 <? int_max_str_digits py) eqn:Hpos;
    [| done].
  destruct (int_max_str_digits py <? String.length ds) eqn:Hlong; [| done].
  apply Nat.ltb_lt in Hpos, Hlong. lia.
Qed.

Lemma scan_within (fuel : nat) :
  (∀ room s e, String.length s ≤ room → digits_fit s →
               scan_once py fuel room s ≠ Raised e) ∧
  (∀ room items s e, String.length s ≤ room → digits_fit s →
               array_items py fuel room items s ≠ Raised e) ∧
  (∀ room pairs s e, String.length s ≤ room → digits_fit s →
               object_pairs py fuel room pairs s ≠ Raised e).
Proof.
  induction fuel as [| fuel (IHs & IHa & IHo)]; [split_and!; intros; done |].
  destruct (scan_fuel fuel) as (Hlen & _ & _).
  split_and!.
  - intros room s e Hroom Hfit. cbn [scan_once].
    destruct (next_is dq s) as [s1 |].
    { destruct (scanstring s1 "") as [[str r'] |]; done. }
    destruct (next_is "{" s) as [s1 |] eqn:Hbrace.
    { apply next_is_length in Hbrace.
      destruct room as [| room]; [lia |].
      pose proof (skip_ws_length s1) as Hws.
      destruct (next_is "}" (skip_ws s1)); [done |].
      destruct (next_is dq (skip_ws s1)) as [r' |] eqn:Hkey; [| done].
      apply next_is_length in Hkey. apply IHo; lia. }
    destruct (next_is "[" s) as [s1 |] eqn:Hbracket.
    { apply next_is_length in Hbracket.
      destruct room as [| room]; [lia |].
      pose proof (skip_ws_length s1) as Hws.
      destruct (next_is "]" (skip_ws s1)); [done |].
      apply IHa; lia. }
    by apply scan_atom_fits.
  - intros room items s e Hroom Hfit. cbn [array_items].
    specialize (IHs room s). specialize (Hlen room s) as [Hlen _].
    destruct (scan_once py fuel room s) as [v0 r0 | | e0 |] eqn:Hscan;
      [| done | by specialize (IHs e0 Hroom Hfit) | done].
    specialize (Hlen _ _ eq_refl).
    pose proof (skip_ws_length r0) as Hws.
    destruct (next_is "]" (skip_ws r0)); [done |].
    destruct (next_is "," (skip_ws r0)) as [r' |] eqn:Hcomma; [| done].
    apply next_is_length in Hcomma.
    pose proof (skip_ws_length r') as Hws'.
    apply IHa; lia.
  - intros room pairs s e Hroom Hfit. cbn [object_pairs].
    destruct (scanstring s "") as [[key r0] |] eqn:Hs; [| done].
    apply scanstring_length in Hs.
    pose proof (skip_ws_length r0) as Hws0.
    destruct (next_is ":" (skip_ws r0)) as [r1 |] eqn:Hcolon; [| done].
    apply next_is_length in Hcolon.
    pose proof (skip_ws_length r1) as Hws1.
    specialize (IHs room (skip_ws r1)).
    specialize (Hlen room (skip_ws r1)) as [Hlen _].
    destruct (scan_once py fuel room (skip_ws r1)) as [v0 r2 | | e0 |] eqn:Hscan;
      [| done | exfalso; apply (IHs e0); [lia | lia | done] | done].
    specialize (Hlen _ _ eq_refl).
    pose proof (skip_ws_length r2) as Hws2.
    destruct (next_is "}" (skip_ws r2)); [done |].
    destruct (next_is "," (skip_ws r2)) as [r3 |] eqn:Hcomma; [| done].
    apply next_is_length in Hcomma.
    pose proof (skip_ws_length r3) as Hws3.
    destruct (next_is dq (skip_ws r3)) as [r4 |] eqn:Hkey; [| done].
    apply next_is_length in Hkey.
    apply IHo; lia.
Qed.

Lemma within_limits_spec (s : string) :
  within_limits py s = true ↔
  String.length s ≤ recursion_room py ∧ digits_fit s.
Proof.
  unfold within_limits.
  rewrite andb_true_iff, orb_true_iff, !Nat.leb_le, Nat.eqb_eq. reflexivity.
Qed.

Lemma json_loads_within (s : string) :
  within_limits py s = true →
  (∃ v, json_loads py s = Return v) ∨ json_loads py s = Raise JSONDecodeError.
Proof.
  intros [Hroom Hfit]%within_limits_spec. unfold json_loads.
  pose proof (skip_ws_length s) as Hws.
  destruct (scan_once _ _ _ _) as [v r | | e0 |] eqn:Hscan.
  - destruct (String.eqb _ _); eauto.
  - by right.
  - exfalso. revert Hscan. apply (scan_within (fuel_for s)); lia.
  - by right.
Qed.

Lemma json_loads_raises (s : string) (e : exn) :
  json_loads py s = Raise e →
  e = JSONDecodeError ∨ e = ValueError ∨ e = RecursionError.
Proof.
  unfold json_loads.
  destruct (scan_once _ _ _ _) as [v r | | e0 |] eqn:Hscan.
  - destruct (String.eqb _ _); [done | intros [= <-]; by left].
  - intros [= <-]. by left.
  - intros [= <-]. right.
    exact (proj1 (scan_raises (fuel_for s)) _ _ _ Hscan).
  - intros [= <-]. by left.
Qed.

End ScannerFuel.

(* ===================================================================== *)
(** * Properties of the stream decoder                                   *)
(* ===================================================================== *)

(** An empty stream decodes to no chunk. *)
Lemma parse_stream_data_empty (py : limits) :
  parse_stream_data py (stream_of []) = Return [].
Proof. reflexivity. Qed.

(** The loop goes through the lines in order: decoding two streams one
    after the other is decoding the second from the chunks of the first. *)
Lemma parse_stream_lines_app (py : limits) (l1 l2 : list line)
  (chunks : list value) :
  parse_stream_lines py (l1 ++ l2) chunks =
  match parse_stream_lines py l1 chunks with
  | Return chunks' => parse_stream_lines py l2 chunks'
  | Raise e => Raise e
  end.
Proof.
  revert chunks. induction l1 as [| l l1 IH]; intros chunks; simpl; [done |].
  destruct (parse_stream_line py chunks l); [apply IH | done].
Qed.

(** A line only ever adds to the chunks, at their end, and at most one. *)
Lemma parse_stream_line_extends (py : limits) (chunks chunks' : list value)
  (l : line) :
  parse_stream_line py chunks l = Return chunks' →
  chunks' = chunks ∨ ∃ chunk, chunks' = chunks ++ [chunk].
Proof.
  unfold parse_stream_line.
  destruct (line_given l); [| intros [= <-]; eauto].
  destruct (line_decode l) as [line_str |]; [| done].
  destruct (startswith _ _); [| intros [= <-]; eauto].
  destruct (negb _); [| intros [= <-]; eauto].
  destruct (json_loads _ _) as [chunk | e]; [intros [= <-]; eauto |].
  destruct (is_JSONDecodeError e); [intros [= <-]; eauto | done].
Qed.

(** C2 fails on the lines of a response. [iter_lines()] yields the five
    lines as text, and a [str] has no [decode]: the first line, not being
    empty, stops the decoding with [AttributeError], under any limits of
    the interpreter and whatever the chunks so far. The two chunks of the
    claim are what the loop gives for the same lines as [bytes]. *)
Theorem parse_stream_data_sample (py : limits) :
  parse_stream_data py (stream_of sample_text_stream) =
    Raise (AttributeError "decode") ∧
  (∀ chunks, parse_stream_line py chunks (Str ("data: {" +:+ quoted "a" +:+ ":1}")) =
             Raise (AttributeError "decode")) ∧
  parse_stream_data cpython (stream_of sample_stream) =
    Return [VDict [("a", VInt 1)]; VDict [("a", VInt 2)]].
Proof.
  split_and!; [reflexivity | intros chunks; reflexivity | vm_compute; reflexivity].
Qed.

(** The sample lines as [bytes], one by one: the blank line, the line that
    is not JSON and the sentinel each leave the chunks as they are and
    raise nothing; the line after the sentinel is decoded and its chunk
    added. *)
Lemma parse_stream_line_sample (chunks : list value) :
  parse_stream_line cpython chunks (Bytes "") = Return chunks ∧
  parse_stream_line cpython chunks (Bytes "data: not-json") = Return chunks ∧
  parse_stream_line cpython chunks (Bytes "data: [DONE]") = Return chunks ∧
  parse_stream_line cpython chunks (Bytes ("data: {" +:+ quoted "a" +:+ ":2}")) =
    Return (chunks ++ [VDict [("a", VInt 2)]]) ∧
  parse_stream_lines cpython
    (Bytes <$> ["data: [DONE]"; "data: {" +:+ quoted "a" +:+ ":2}"])
    [VDict [("a", VInt 1)]] =
    Return [VDict [("a", VInt 1)]; VDict [("a", VInt 2)]].
Proof.
  split_and!; vm_compute; reflexivity.
Qed.

(* ===================================================================== *)
(** * More on [request]: outcomes and effects                          *)
(* ===================================================================== *)

Section RequestOutcomes.

Variable repr : value → string.
Variable transport : Client → Call → result Response.

(** The call that [request] makes. *)
Local Abbreviation call_of self method url hs kwargs σ :=
  {| call_method := method;
     call_url := base_url self +:+ url;
     call_headers := headers_or hs (dict_at σ (headers self));
     call_kwargs := convert_data method kwargs |}.

Local Abbreviation sent_state σ c call :=
  {| heap := heap σ; trace := trace σ ++ [Sent c call] |}.

(** The whole outcome of [request] on a session whose client is there. *)
Lemma request_run (self : BaseApi) (c : loc) (cl : Client) (method url : string)
  (hs : option (gmap string string)) (expected : option Z)
  (kwargs : gmap string value) (σ : state) :
  client self = Some c → client_at σ c = Some cl →
  request repr transport self method url hs expected kwargs σ =
  let call := call_of self method url hs kwargs σ in
  match transport cl call with
  | Raise e => (Raise e, sent_state σ c call)
  | Return resp =>
    if status_given expected then
      let out := check_status_code repr resp (default 0 expected) (sent_state σ c call) in
      (match out.1 with Return _ => Return resp | Raise e => Raise e end, out.2)
    else (Return resp, sent_state σ c call)
  end.
Proof.
  intros Hc Hcl. cbv zeta.
  unfold request, self_headers, get_dict, self_client, client_request, bind, log, ret.
  rewrite Hc. simpl.
  assert (Hcl' : client_at (sent_state σ c (call_of self method url hs kwargs σ)) c = Some cl)
    by exact Hcl.
  rewrite Hcl'.
  destruct (transport cl _) as [resp | e]; [| reflexivity].
  destruct (status_given expected); [| reflexivity].
  destruct (check_status_code repr resp _ _) as [[[] | e] σ']; reflexivity.
Qed.


(** X1. With an expected status that is not 0, the outcome of [request]
    is that of the check on the response that came back. When the status
    is not 200 and [json()] raises something other than [JSONDecodeError],
    [request] raises that, whether or not the status is the expected one.
    Otherwise it returns the response when its status is the expected one
    and raises the [AssertionError] of [check_status_code] when it is not.
    In every case the call has gone out by then, once. *)
Theorem request_checked (self : BaseApi) (c : loc) (cl : Client)
  (method url : string) (hs : option (gmap string string)) (expected : Z)
  (kwargs : gmap string value) (resp : Response) (σ : state) :
  client self = Some c → client_at σ c = Some cl →
  transport cl (call_of self method url hs kwargs σ) = Return resp →
  expected ≠ 0 →
  (request repr transport self method url hs (Some expected) kwargs σ).1 =
    match diagnostic resp with
    | Raise e => Raise e
    | Return error =>
      if status_code resp =? expected then Return resp
      else Raise (AssertionError
        ("Wrong response code. Expected = " +:+ str_int expected +:+
         ", received = " +:+ str_int (status_code resp) +:+
         " | error = " +:+ py_str repr error))
    end ∧
  (status_code resp ≠ 200 → ∀ e, json resp = Raise e → e ≠ JSONDecodeError →
   (request repr transport self method url hs (Some expected) kwargs σ).1 =
   Raise e) ∧
  sent_calls (trace (request repr transport self method url hs (Some expected)
                       kwargs σ).2) =
    sent_calls (trace σ) ++ [call_of self method url hs kwargs σ].
Proof.
  intros Hc Hcl Hresp Hexp.
  assert (Hout :
    (request repr transport self method url hs (Some expected) kwargs σ).1 =
    match diagnostic resp with
    | Raise e => Raise e
    | Return error =>
      if status_code resp =? expected then Return resp
      else Raise (AssertionError
        ("Wrong response code. Expected = " +:+ str_int expected +:+
         ", received = " +:+ str_int (status_code resp) +:+
         " | error = " +:+ py_str repr error))
    end).
  { rewrite (request_run self c cl) by assumption. cbv zeta.
    rewrite Hresp. simpl.
    apply Z.eqb_neq in Hexp. rewrite Hexp. simpl.
    rewrite check_status_code_run. simpl.
    destruct (diagnostic resp); [| reflexivity].
    destruct (status_code resp =? expected); reflexivity. }
  split_and!; [exact Hout | | apply (request_sends repr transport self c); exact Hc].
  intros H200 e He Hne. rewrite Hout. unfold diagnostic.
  apply Z.eqb_neq in H200. rewrite H200, He.
  destruct e; try reflexivity. contradiction.
Qed.

(** X2. Without an expected status, and also with the expected status 0,
    [request] checks nothing: it returns whatever response came back, and
    the only thing it has done is the call. *)
Theorem request_unchecked (self : BaseApi) (c : loc) (cl : Client)
  (method url : string) (hs : option (gmap string string)) (expected : option Z)
  (kwargs : gmap string value) (resp : Response) (σ : state) :
  client self = Some c → client_at σ c = Some cl →
  transport cl (call_of self method url hs kwargs σ) = Return resp →
  expected = None ∨ expected = Some 0 →
  request repr transport self method url hs expected kwargs σ =
  (Return resp, sent_state σ c (call_of self method url hs kwargs σ)).
Proof.
  intros Hc Hcl Hresp Hexp.
  rewrite (request_run self c cl) by assumption. cbv zeta.
  rewrite Hresp. destruct Hexp as [-> | ->]; reflexivity.
Qed.

(** X3. An exception of the transport comes out of [request] as it is, and
    the status is not looked at. *)
Theorem request_transport_error (self : BaseApi) (c : loc) (cl : Client)
  (method url : string) (hs : option (gmap string string)) (expected : option Z)
  (kwargs : gmap string value) (e : exn) (σ : state) :
  client self = Some c → client_at σ c = Some cl →
  transport cl (call_of self method url hs kwargs σ) = Raise e →
  request repr transport self method url hs expected kwargs σ =
  (Raise e, sent_state σ c (call_of self method url hs kwargs σ)).
Proof.
  intros Hc Hcl He.
  rewrite (request_run self c cl) by assumption. cbv zeta.
  rewrite He. reflexivity.
Qed.

(** X4. On an object without a [client] attribute [request] raises
    [AttributeError] before anything is sent. *)
Theorem request_without_client (self : BaseApi) (method url : string)
  (hs : option (gmap string string)) (expected : option Z)
  (kwargs : gmap string value) (σ : state) :
  client self = None →
  request repr transport self method url hs expected kwargs σ =
  (Raise (AttributeError "client"), σ).
Proof.
  intros Hc.
  unfold request, self_headers, get_dict, self_client, bind, raise.
  rewrite Hc. reflexivity.
Qed.

(** X5. [request] never writes to the heap: header dicts and clients are
    after it what they were before, whatever its outcome. *)
Theorem request_heap (self : BaseApi) (method url : string)
  (hs : option (gmap string string)) (expected : option Z)
  (kwargs : gmap string value) (σ : state) :
  heap (request repr transport self method url hs expected kwargs σ).2 = heap σ.
Proof.
  destruct (client self) as [c |] eqn:Hc.
  - apply (request_sends repr transport self c). exact Hc.
  - unfold request, self_headers, get_dict, self_client, bind, raise.
    rewrite Hc. reflexivity.
Qed.

(** X6. The conversion of [data] is for the methods spelled POST, PUT and
    PATCH only: with any other method, a lower-case one included, the
    keyword arguments go out as they came, a dict under [data] too. *)
Theorem request_other_methods (self : BaseApi) (c : loc) (method url : string)
  (hs : option (gmap string string)) (expected : option Z)
  (kwargs : gmap string value) (σ : state) :
  client self = Some c →
  method ∉ ["POST"; "PUT"; "PATCH"] →
  call_kwargs <$>
    sent_calls (trace (request repr transport self method url hs expected kwargs σ).2) =
  (call_kwargs <$> sent_calls (trace σ)) ++ [kwargs].
Proof.
  intros Hc Hm.
  destruct (request_sends repr transport self c method url hs expected kwargs σ Hc)
    as [-> _].
  rewrite fmap_app. simpl. unfold convert_data, body_bearing.
  rewrite bool_decide_eq_false_2 by exact Hm. reflexivity.
Qed.

End RequestOutcomes.

Lemma sample_client_at : client_at sample_state 1%nat = Some sample_client.
Proof. vm_compute. reflexivity. Qed.

(** X1 at work: 404 comes back where 200 was expected. *)
Lemma request_checked_witness :
  (request repr_brief always_404 sample_session "GET" "/test" None (Some 200) ∅
     sample_state).1 =
  Raise (AssertionError
    "Wrong response code. Expected = 200, received = 404 | error = Unable to parse error").
Proof.
  apply (proj1 (request_checked repr_brief always_404 sample_session 1%nat
                  sample_client "GET" "/test" None 200 ∅ (response_of 404 None)
                  sample_state eq_refl sample_client_at eq_refl ltac:(discriminate))).
Defined.

(** X2 at work: the same 404 with the expected status 0 is returned. *)
Lemma request_unchecked_witness :
  (request repr_brief always_404 sample_session "GET" "/test" None (Some 0) ∅
     sample_state).1 = Return (response_of 404 None).
Proof.
  rewrite (request_unchecked repr_brief always_404 sample_session 1%nat
             sample_client "GET" "/test" None (Some 0) ∅ (response_of 404 None)
             sample_state eq_refl sample_client_at eq_refl (or_intror eq_refl)).
  reflexivity.
Defined.

Lemma request_transport_error_witness :
  (request repr_brief never_answers sample_session "GET" "/test" None (Some 200) ∅
     sample_state).1 = Raise (RuntimeError "timed out").
Proof.
  rewrite (request_transport_error repr_brief never_answers sample_session 1%nat
             sample_client "GET" "/test" None (Some 200) ∅ (RuntimeError "timed out")
             sample_state eq_refl sample_client_at eq_refl).
  reflexivity.
Defined.

Lemma request_without_client_witness :
  request repr_brief always_ok clientless_session "GET" "/test" None None ∅
    sample_state = (Raise (AttributeError "client"), sample_state).
Proof.
  apply (request_without_client repr_brief always_ok clientless_session "GET"
           "/test" None None ∅ sample_state eq_refl).
Defined.

(** X6 at work: a dict posted with the method in lower case stays under
    [data]. *)
Lemma request_other_methods_witness :
  call_kwargs <$>
    sent_calls (trace (request repr_brief always_ok sample_session "post" "/test"
                         None None {["data" := VDict [("key", VStr "value")]]}
                         sample_state).2) =
  [{["data" := VDict [("key", VStr "value")]]}].
Proof.
  apply (request_other_methods repr_brief always_ok sample_session 1%nat "post"
           "/test" None None {["data" := VDict [("key", VStr "value")]]}
           sample_state eq_refl).
  rewrite !elem_of_cons, elem_of_nil. intros [H | [H | [H | []]]]; discriminate.
Defined.

(* ===================================================================== *)
(** * The wrappers of [request]                                        *)
(* ===================================================================== *)

Section Wrappers.

Variable repr : value → string.
Variable transport : Client → Call → result Response.

(** What [convert_data] leaves of keyword arguments to which a wrapper has
    added its [data]. *)
Lemma convert_data_of_body (method : string) (data : value)
  (kwargs : gmap string value) :
  method ∈ ["POST"; "PUT"; "PATCH"] →
  convert_data method (<["data" := data]> kwargs) =
  if (is_dict data || is_list data) && negb (is_str data)
  then <["json" := data]> (delete "data" kwargs)
  else <["data" := data]> kwargs.
Proof.
  intros Hm. unfold convert_data, body_bearing.
  rewrite bool_decide_eq_true_2 by exact Hm.
  rewrite lookup_insert_eq.
  destruct ((is_dict data || is_list data) && negb (is_str data)); [| done].
  rewrite delete_insert_ne by done. rewrite delete_insert_eq. reflexivity.
Qed.

(** X7. [post], [put] and [patch] with a dict or a list make one call, by
    their own method, to the base address followed by the path, with the
    body under [json] and nothing under [data]; with a string the body
    stays under [data]. *)
Theorem body_wrappers_send (self : BaseApi) (c : loc) (url : string)
  (data : value) (hs : option (gmap string string)) (expected : option Z)
  (kwargs : gmap string value) (σ : state) :
  client self = Some c →
  let body := if is_dict data || is_list data
              then <["json" := data]> (delete "data" kwargs)
              else <["data" := data]> kwargs in
  let sent method :=
    sent_calls (trace σ) ++
    [{| call_method := method; call_url := base_url self +:+ url;
        call_headers := headers_or hs (dict_at σ (headers self));
        call_kwargs := body |}] in
  sent_calls (trace (post repr transport self url data hs expected kwargs σ).2) =
    sent "POST" ∧
  sent_calls (trace (put repr transport self url data hs expected kwargs σ).2) =
    sent "PUT" ∧
  sent_calls (trace (patch repr transport self url data hs expected kwargs σ).2) =
    sent "PATCH".
Proof.
  intros Hc. cbv zeta. unfold post, put, patch.
  assert (Hkind : (is_dict data || is_list data) && negb (is_str data) =
                  is_dict data || is_list data) by (destruct data; reflexivity).
  split_and!;
    match goal with
    | |- context [request repr transport self ?m url hs expected ?kw σ] =>
      destruct (request_sends repr transport self c m url hs expected kw σ Hc)
        as [-> _];
      rewrite convert_data_of_body, Hkind
        by (rewrite !elem_of_cons; auto)
    end; reflexivity.
Qed.

(** X8. [get], [delete], [head] and [options] make one call, by their own
    method, and pass the keyword arguments on as they are. *)
Theorem plain_wrappers_send (self : BaseApi) (c : loc) (url : string)
  (hs : option (gmap string string)) (expected : option Z)
  (kwargs : gmap string value) (σ : state) :
  client self = Some c →
  let sent method :=
    sent_calls (trace σ) ++
    [{| call_method := method; call_url := base_url self +:+ url;
        call_headers := headers_or hs (dict_at σ (headers self));
        call_kwargs := kwargs |}] in
  sent_calls (trace (get repr transport self url hs expected kwargs σ).2) =
    sent "GET" ∧
  sent_calls (trace (delete_ repr transport self url hs expected kwargs σ).2) =
    sent "DELETE" ∧
  sent_calls (trace (head_ repr transport self url hs expected kwargs σ).2) =
    sent "HEAD" ∧
  sent_calls (trace (options repr transport self url hs expected kwargs σ).2) =
    sent "OPTIONS".
Proof.
  intros Hc. cbv zeta. unfold get, delete_, head_, options.
  split_and!;
    match goal with
    | |- context [request repr transport self ?m url hs expected kwargs σ] =>
      destruct (request_sends repr transport self c m url hs expected kwargs σ Hc)
        as [-> _]
    end; reflexivity.
Qed.

End Wrappers.

(** X7 at work, as in the unit tests. *)
Lemma body_wrappers_send_witness :
  call_kwargs <$>
    sent_calls (trace (put repr_brief always_ok sample_session "/put_endpoint"
                         (VDict [("id", VInt 1); ("name", VStr "test")])
                         None None ∅ sample_state).2) =
  [{["json" := VDict [("id", VInt 1); ("name", VStr "test")]]}].
Proof.
  rewrite (proj1 (proj2 (body_wrappers_send repr_brief always_ok sample_session
                           1%nat "/put_endpoint"
                           (VDict [("id", VInt 1); ("name", VStr "test")])
                           None None ∅ sample_state eq_refl))).
  vm_compute. reflexivity.
Defined.

Lemma plain_wrappers_send_witness :
  call_method <$>
    sent_calls (trace (head_ repr_brief always_ok sample_session
                         "/another_endpoint" None None ∅ sample_state).2) =
  ["HEAD"].
Proof.
  rewrite (proj1 (proj2 (proj2 (plain_wrappers_send repr_brief always_ok
                                  sample_session 1%nat "/another_endpoint"
                                  None None ∅ sample_state eq_refl)))).
  reflexivity.
Defined.

(* ===================================================================== *)
(** * More on sessions: construction and teardown                      *)
(* ===================================================================== *)

(** The two objects of a new session, by location. *)
Lemma heap_pair_lookup {A} (h : list A) (a b : A) :
  (h ++ [a; b]) !! length h = Some a ∧ (h ++ [a; b]) !! S (length h) = Some b.
Proof.
  split; rewrite lookup_app_r by lia.
  - by rewrite Nat.sub_diag.
  - by replace (S (length h) - length h)%nat with 1%nat by lia.
Qed.

(** X9. Without a token, and also with the empty string for a token,
    [__init__] gives the session the two fixed headers and no
    [Authorization], and builds the client from the same two, with a
    timeout of 30, HTTP/2 on and its pool open. *)
Theorem init_without_token (url : string) (token : option string) (σ : state) :
  token = None ∨ token = Some "" →
  ∃ (s : BaseApi) (c : loc) (σ' : state),
    __init__ url token σ = (Return s, σ') ∧
    base_url s = url ∧ client s = Some c ∧
    dict_at σ' (headers s) =
      <["Accept-Encoding" := "gzip, deflate, br"]>
        {["Content-Type" := "application/json"]} ∧
    dict_at σ' (headers s) !! "Authorization" = None ∧
    client_at σ' c =
      Some {| client_headers :=
                <["Accept-Encoding" := "gzip, deflate, br"]>
                  {["Content-Type" := "application/json"]};
              timeout := 30; http2 := true; is_closed := false |}.
Proof.
  intros Htoken.
  assert (Hgiven : token_given token = false) by (destruct Htoken as [-> | ->]; done).
  pose proof (init_run url token σ) as Hrun. cbv zeta in Hrun.
  rewrite Hgiven in Hrun.
  eexists _, _, _. split; [exact Hrun |].
  unfold dict_at, client_at. cbn [base_url client headers heap].
  match goal with
  | |- context [heap σ ++ [?a; ?b]] =>
    destruct (heap_pair_lookup (heap σ) a b) as [-> ->]
  end.
  split_and!; reflexivity.
Qed.

Lemma init_without_token_witness :
  ∃ (s : BaseApi) (σ' : state),
    __init__ "https://automation-qa-test.universeapps.limited" (Some "")
      empty_state = (Return s, σ') ∧
    dict_at σ' (headers s) !! "Authorization" = None.
Proof.
  destruct (init_without_token "https://automation-qa-test.universeapps.limited"
              (Some "") empty_state (or_intror eq_refl))
    as (s & c & σ' & Hrun & _ & _ & _ & Hauth & _).
  exists s, σ'. split; assumption.
Defined.

(** X10. [__init__] adds two objects at the end of the heap, the header
    dict and the client of the new session, and touches nothing else: the
    objects that were there are as they were, and so is the trace. *)
Theorem init_frame (url : string) (token : option string) (σ : state) :
  ∃ (s : BaseApi) (σ' : state),
    __init__ url token σ = (Return s, σ') ∧
    headers s = length (heap σ) ∧
    client s = Some (S (length (heap σ))) ∧
    length (heap σ') = S (S (length (heap σ))) ∧
    trace σ' = trace σ ∧
    (∀ l : loc, (l < length (heap σ))%nat → heap σ' !! l = heap σ !! l) ∧
    (∀ l : loc, (l < length (heap σ))%nat →
       dict_at σ' l = dict_at σ l ∧ client_at σ' l = client_at σ l).
Proof.
  pose proof (init_run url token σ) as Hrun. cbv zeta in Hrun.
  eexists _, _. split; [exact Hrun |].
  cbn [headers client heap trace].
  split_and!; try reflexivity.
  - rewrite length_app. simpl. lia.
  - intros l Hl. apply lookup_app_l. exact Hl.
  - intros l Hl. unfold dict_at, client_at. cbn [heap].
    rewrite lookup_app_l by exact Hl. done.
Qed.

(** X11. [__del__] changes one thing at most, the client of its own
    session, which it leaves closed: no header dict changes, and no other
    client does. *)
Theorem del_frame (self : BaseApi) (σ : state) :
  (∀ l : loc, dict_at (__del__ self σ).2 l = dict_at σ l) ∧
  (∀ l : loc, client self ≠ Some l →
     heap (__del__ self σ).2 !! l = heap σ !! l) ∧
  (∀ (c : loc) (cl : Client),
     client self = Some c → client_at σ c = Some cl →
     client_at (__del__ self σ).2 c =
       Some {| client_headers := client_headers cl; timeout := timeout cl;
               http2 := http2 cl; is_closed := true |}).
Proof.
  unfold __del__, hasattr_client, self_client.
  destruct (client self) as [c |]; [| split_and!; done].
  unfold bind, ret. cbn [fst snd]. unfold Client_close.
  destruct (client_at σ c) as [cl |] eqn:Hcl; [| split_and!; [done | done | ]].
  2: { intros c' cl' [= <-]. rewrite Hcl. done. }
  assert (Hlook : heap σ !! c = Some (HttpClient cl)).
  { unfold client_at in Hcl. destruct (heap σ !! c) as [[d | k] |]; congruence. }
  destruct (is_closed cl) eqn:Hclosed; cbn [snd].
  - split_and!; [done | done |].
    intros c' cl' [= <-]. rewrite Hcl. intros [= <-].
    destruct cl. simpl in *. subst. reflexivity.
  - split_and!.
    + intros l. unfold dict_at. cbn [heap].
      destruct (decide (l = c)) as [-> | Hne].
      * rewrite list_lookup_insert_eq by (eapply lookup_lt_Some; exact Hlook).
        rewrite Hlook. reflexivity.
      * rewrite list_lookup_insert_ne by done. reflexivity.
    + intros l Hne. cbn [heap].
      rewrite list_lookup_insert_ne by congruence. reflexivity.
    + intros c' cl' [= <-]. rewrite Hcl. intros [= <-].
      unfold client_at. cbn [heap].
      rewrite list_lookup_insert_eq by (eapply lookup_lt_Some; exact Hlook).
      reflexivity.
Qed.

(** X11 at work: the sample session after [__del__]. *)
Lemma del_frame_witness :
  client_at (__del__ sample_session sample_state).2 1%nat =
  Some {| client_headers := client_headers sample_client; timeout := 30;
          http2 := true; is_closed := true |}.
Proof.
  apply (proj2 (proj2 (del_frame sample_session sample_state)) 1%nat sample_client);
    reflexivity.
Defined.

(** X12. [default_headers] of a [ChatApi] object is the header dict of the
    object itself, not a copy of it: an entry set in [headers] afterwards
    shows in [default_headers]. *)
Theorem default_headers_aliased (url token : string) (σ : state) :
  ∃ (api : ChatApi) (σ' : state),
    ChatApi__init__ url token σ = (Return api, σ') ∧
    __init__ url (Some token) σ = (Return (base api), σ') ∧
    default_headers api = headers (base api) ∧
    ∀ k v : string,
      dict_at (dict_setitem (headers (base api)) k v σ').2 (default_headers api) =
      <[k := v]> (dict_at σ' (default_headers api)).
Proof.
  pose proof (init_run url (Some token) σ) as Hrun. cbv zeta in Hrun.
  unfold ChatApi__init__, bind, ret. rewrite Hrun.
  eexists _, _. split; [reflexivity |]. cbn [base default_headers headers].
  split_and!; try reflexivity.
  intros k v. unfold dict_setitem, dict_at. cbn [snd heap].
  rewrite list_lookup_insert_eq by (rewrite length_app; simpl; lia).
  reflexivity.
Qed.

(* ===================================================================== *)
(** * The chat facade: [post_chat_completion] and [APIs]               *)
(* ===================================================================== *)

Section ChatFacts.

Variable repr : value → string.
Variable transport : Client → Call → result Response.

(** The body that [post_chat_completion] builds. *)
Local Abbreviation chat_body messages model temperature top_p n presence
  frequency stream :=
  (VDict [("temperature", default (VFloat "0.4") temperature);
          ("top_p", default (VFloat "1.0") top_p);
          ("n", default (VInt 1) n);
          ("presence_penalty", default (VInt 0) presence);
          ("frequency_penalty", default (VInt 0) frequency);
          ("stream", VBool (default false stream));
          ("model", VStr (default "gpt-4-0125-preview" model));
          ("messages", VList messages)]).

Local Abbreviation chat_call self σ body :=
  {| call_method := "POST";
     call_url := base_url (base self) +:+ "/stream/v1/chat/completions";
     call_headers := dict_at σ (headers (base self));
     call_kwargs := {["json" := body]} |}.

(** X13. [post_chat_completion] makes one call: a POST to the base address
    followed by the path of the endpoint, with the header dict of the
    session, and with the eight fields as a dict under [json] and no other
    keyword argument. A field that is left out has the default of the
    signature. *)
Theorem post_chat_completion_sends (self : ChatApi) (c : loc)
  (messages : list value) (model : option string)
  (temperature top_p n presence frequency : option value)
  (stream : option bool) (expected : option Z) (σ : state) :
  client (base self) = Some c →
  sent_calls (trace (post_chat_completion repr transport self messages model
                       temperature top_p n presence frequency stream expected σ).2) =
  sent_calls (trace σ) ++
  [chat_call self σ
     (chat_body messages model temperature top_p n presence frequency stream)].
Proof.
  intros Hc. unfold post_chat_completion, post.
  match goal with
  | |- context [request repr transport ?s ?m ?u ?h ?e ?kw σ] =>
    destruct (request_sends repr transport s c m u h e kw σ Hc) as [-> _]
  end.
  unfold convert_data, body_bearing.
  rewrite bool_decide_eq_true_2 by (rewrite !elem_of_cons; auto).
  rewrite lookup_insert_eq. cbn [is_dict is_list is_str orb andb negb].
  rewrite delete_insert_ne by done. rewrite delete_insert_eq.
  rewrite delete_empty. reflexivity.
Qed.

(** X14. When no expected status is given, [post_chat_completion] expects
    200: it returns the response when its status is 200; for any other
    status it raises what [json()] raises when that is not
    [JSONDecodeError], and else the [AssertionError] of
    [check_status_code], with the decoded body or the placeholder. Given
    the expected status 0, it returns the response whatever its status. *)
Theorem post_chat_completion_expects_200 (self : ChatApi) (c : loc) (cl : Client)
  (messages : list value) (model : option string)
  (temperature top_p n presence frequency : option value)
  (stream : option bool) (resp : Response) (σ : state) :
  client (base self) = Some c → client_at σ c = Some cl →
  transport cl
    (chat_call self σ
       (chat_body messages model temperature top_p n presence frequency stream)) =
    Return resp →
  (post_chat_completion repr transport self messages model temperature top_p n
     presence frequency stream None σ).1 =
    (if status_code resp =? 200 then Return resp
     else match json resp with
          | Return v =>
            Raise (AssertionError
              ("Wrong response code. Expected = 200, received = " +:+
               str_int (status_code resp) +:+ " | error = " +:+ py_str repr v))
          | Raise JSONDecodeError =>
            Raise (AssertionError
              ("Wrong response code. Expected = 200, received = " +:+
               str_int (status_code resp) +:+ " | error = Unable to parse error"))
          | Raise e => Raise e
          end) ∧
  (post_chat_completion repr transport self messages model temperature top_p n
     presence frequency stream (Some 0) σ).1 = Return resp.
Proof.
  intros Hc Hcl Hresp.
  assert (Hcall :
    {| call_method := "POST";
       call_url := base_url (base self) +:+ "/stream/v1/chat/completions";
       call_headers := headers_or None (dict_at σ (headers (base self)));
       call_kwargs := convert_data "POST"
         (<["data" := chat_body messages model temperature top_p n presence
                        frequency stream]> ∅) |} =
    chat_call self σ
      (chat_body messages model temperature top_p n presence frequency stream)).
  { unfold convert_data, body_bearing.
    rewrite bool_decide_eq_true_2 by (rewrite !elem_of_cons; auto).
    rewrite lookup_insert_eq. cbn [is_dict is_list is_str orb andb negb].
    rewrite delete_insert_ne by done. rewrite delete_insert_eq.
    rewrite delete_empty. reflexivity. }
  unfold post_chat_completion, post. split.
  - rewrite (request_run repr transport (base self) c cl) by assumption.
    cbv zeta. rewrite Hcall, Hresp.
    change (default 0 (Some (default 200 None))) with 200.
    change (status_given (Some (default 200 None))) with true. cbv iota.
    rewrite check_status_code_run. cbn [fst snd]. unfold diagnostic.
    destruct (status_code resp =? 200); [reflexivity |].
    destruct (json resp) as [v | []]; reflexivity.
  - rewrite (request_run repr transport (base self) c cl) by assumption.
    cbv zeta. rewrite Hcall, Hresp. reflexivity.
Qed.

End ChatFacts.

(** X13 at work: the body of a call with one message and the defaults. *)
Lemma post_chat_completion_sends_witness :
  call_kwargs <$>
    sent_calls (trace (post_chat_completion repr_brief always_ok sample_chat
                         sample_messages None None None None None None None None
                         sample_state).2) =
  [{["json" :=
       VDict [("temperature", VFloat "0.4"); ("top_p", VFloat "1.0");
              ("n", VInt 1); ("presence_penalty", VInt 0);
              ("frequency_penalty", VInt 0); ("stream", VBool false);
              ("model", VStr "gpt-4-0125-preview");
              ("messages", VList sample_messages)]]}].
Proof.
  rewrite (post_chat_completion_sends repr_brief always_ok sample_chat 1%nat
             sample_messages None None None None None None None None
             sample_state eq_refl).
  reflexivity.
Defined.

(** X14 at work: a 404 from the endpoint. *)
Lemma post_chat_completion_expects_200_witness :
  (post_chat_completion repr_brief always_404 sample_chat sample_messages
     None None None None None None None None sample_state).1 =
  Raise (AssertionError
    "Wrong response code. Expected = 200, received = 404 | error = Unable to parse error").
Proof.
  rewrite (proj1 (post_chat_completion_expects_200 repr_brief always_404
                    sample_chat 1%nat sample_client sample_messages
                    None None None None None None None (response_of 404 None)
                    sample_state eq_refl sample_client_at eq_refl)).
  reflexivity.
Defined.

(** X15. [chat_api] builds the session at the first access and keeps it:
    an access after that gives the same session and changes nothing, no
    second client is made. The token and the base address of the object
    stay what they were. *)
Theorem chat_api_cached (self : APIs.t) (σ : state) :
  ∃ (api : ChatApi) (self' : APIs.t) (σ' : state),
    APIs.chat_api self σ = (Return (api, self'), σ') ∧
    APIs.chat_api self' σ' = (Return (api, self'), σ') ∧
    APIs.token self' = APIs.token self ∧
    APIs.base_url self' = APIs.base_url self ∧
    (APIs.chat_api_cache self = None →
     ChatApi__init__ (APIs.base_url self) (APIs.token self) σ = (Return api, σ') ∧
     length (heap σ') = S (S (length (heap σ)))).
Proof.
  unfold APIs.chat_api.
  destruct (APIs.chat_api_cache self) as [api |] eqn:Hcache.
  - exists api, self, σ. rewrite Hcache. split_and!; done.
  - pose proof (init_run (APIs.base_url self) (Some (APIs.token self)) σ) as Hrun.
    cbv zeta in Hrun.
    unfold ChatApi__init__, bind, ret. rewrite Hrun.
    eexists _, _, _. split; [reflexivity |]. cbn [APIs.chat_api_cache].
    split_and!; try reflexivity.
    intros _. split; [reflexivity |]. cbn [heap]. rewrite length_app. simpl. lia.
Qed.

Section FactoryFacts.

Variable environ : gmap string string.
Variable fallback_token : string.

(** X16. The object that [with_invalid_token] returns has the token
    [invalid_token] whatever the environment says and whatever the object
    it is called on, and nothing cached; the session it builds sends
    [Bearer invalid_token]. *)
Theorem with_invalid_token_session (self : APIs.t) (σ : state) :
  let bad := APIs.with_invalid_token environ fallback_token self in
  APIs.token bad = "invalid_token" ∧
  APIs.base_url bad = APIs.base_url (APIs.__init__ environ fallback_token None) ∧
  APIs.chat_api_cache bad = None ∧
  ∃ (api : ChatApi) (bad' : APIs.t) (σ' : state),
    APIs.chat_api bad σ = (Return (api, bad'), σ') ∧
    dict_at σ' (headers (base api)) !! "Authorization" =
      Some "Bearer invalid_token".
Proof.
  cbv zeta. split_and!; try reflexivity.
  change (APIs.with_invalid_token environ fallback_token self) with
    {| APIs.token := "invalid_token";
       APIs.base_url :=
         APIs.getenv environ "API_BASE_URL"
           "https://automation-qa-test.universeapps.limited";
       APIs.chat_api_cache := None |}.
  unfold APIs.chat_api. cbn [APIs.chat_api_cache APIs.token APIs.base_url].
  match goal with
  | |- context [ChatApi__init__ ?u ?t] =>
    pose proof (init_run u (Some t) σ) as Hrun
  end.
  cbv zeta in Hrun. unfold ChatApi__init__, bind, ret. rewrite Hrun.
  eexists _, _, _. split; [reflexivity |].
  unfold dict_at. cbn [base headers heap].
  rewrite (proj1 (heap_pair_lookup (heap σ) _ _)). reflexivity.
Qed.

(** X17. The token of an [APIs] object: a token that is given and not
    empty is taken as it is; without one, or with an empty one, it is the
    variable [API_TOKEN] of the environment when that is set, empty or not,
    and the built-in token only when it is not set. With [API_TOKEN] set
    to the empty string the session of the object has no [Authorization]
    header. *)
Theorem apis_token_resolution (token : option string) (σ : state) :
  (∀ t : string, token = Some t → t ≠ "" →
     APIs.token (APIs.__init__ environ fallback_token token) = t) ∧
  (token = None ∨ token = Some "" →
     APIs.token (APIs.__init__ environ fallback_token token) =
       match environ !! "API_TOKEN" with
       | Some t => t
       | None => fallback_token
       end) ∧
  (token = None ∨ token = Some "" → environ !! "API_TOKEN" = Some "" →
     ∃ (api : ChatApi) (self' : APIs.t) (σ' : state),
       APIs.chat_api (APIs.__init__ environ fallback_token token) σ =
         (Return (api, self'), σ') ∧
       dict_at σ' (headers (base api)) !! "Authorization" = None).
Proof.
  split_and!.
  - intros t -> Ht. unfold APIs.__init__. cbn [APIs.token].
    apply token_given_spec in Ht. rewrite Ht. reflexivity.
  - intros Htoken. unfold APIs.__init__, APIs.getenv. cbn [APIs.token].
    assert (Hgiven : token_given token = false)
      by (destruct Htoken as [-> | ->]; done).
    rewrite Hgiven. destruct (environ !! "API_TOKEN"); reflexivity.
  - intros Htoken Henv.
    assert (Hgiven : token_given token = false)
      by (destruct Htoken as [-> | ->]; done).
    unfold APIs.chat_api, APIs.__init__, APIs.getenv.
    cbn [APIs.chat_api_cache APIs.token APIs.base_url].
    rewrite Hgiven, Henv. cbn [default].
    match goal with
    | |- context [ChatApi__init__ ?u ?t] =>
      pose proof (init_run u (Some t) σ) as Hrun
    end.
    cbv zeta in Hrun. unfold ChatApi__init__, bind, ret. rewrite Hrun.
    eexists _, _, _. split; [reflexivity |].
    unfold dict_at. cbn [base headers heap].
    rewrite (proj1 (heap_pair_lookup (heap σ) _ _)). reflexivity.
Qed.

End FactoryFacts.

(** X17 at work: no token given, [API_TOKEN] set. *)
Lemma apis_token_resolution_witness :
  APIs.token (APIs.__init__ {["API_TOKEN" := "from-the-environment"]}
                "built-in" (Some "")) = "from-the-environment".
Proof.
  rewrite (proj1 (proj2 (apis_token_resolution
                           {["API_TOKEN" := "from-the-environment"]} "built-in"
                           (Some "") empty_state)) (or_intror eq_refl)).
  reflexivity.
Defined.

Lemma chat_api_cached_witness :
  ∃ (api : ChatApi) (σ' : state),
    ChatApi__init__ "https://automation-qa-test.universeapps.limited"
      "dummy_token" empty_state = (Return api, σ') ∧
    length (heap σ') = 2%nat.
Proof.
  destruct (chat_api_cached
              {| APIs.token := "dummy_token";
                 APIs.base_url := "https://automation-qa-test.universeapps.limited";
                 APIs.chat_api_cache := None |} empty_state)
    as (api & self' & σ' & _ & _ & _ & _ & Hfresh).
  exists api, σ'. apply Hfresh. reflexivity.
Defined.

(* ===================================================================== *)
(** * More on the stream decoder                                       *)
(* ===================================================================== *)

Lemma in_range_spec (lo hi : N) (c : ascii) :
  in_range lo hi c = true ↔ (lo ≤ byte c ≤ hi)%N.
Proof.
  unfold in_range. rewrite andb_true_iff, !N.leb_le. reflexivity.
Qed.

(** Text in UTF-8 does not start with a continuation byte. *)
Lemma utf8_ok_head (c : ascii) (b : string) :
  utf8_ok (String c b) = true → is_cont c = false.
Proof.
  intros Hok. destruct (is_cont c) eqn:Hcont; [| reflexivity].
  exfalso. unfold is_cont in Hcont. apply in_range_spec in Hcont.
  cbn [utf8_ok] in Hok.
  destruct (in_range 0 127 c) eqn:E1; [apply in_range_spec in E1; lia |].
  destruct b as [| c1 b2]; [discriminate |].
  destruct (in_range 194 223 c) eqn:E2; [apply in_range_spec in E2; lia |].
  destruct b2 as [| c2 b3]; [discriminate |].
  destruct (in_range 224 239 c) eqn:E3; [apply in_range_spec in E3; lia |].
  destruct b3 as [| c3 b4]; [discriminate |].
  destruct (in_range 240 244 c) eqn:E4; [apply in_range_spec in E4; lia |].
  discriminate.
Qed.

Lemma drop_cont_text (s : string) : utf8_ok s = true → drop_cont s = s.
Proof.
  destruct s as [| c b]; [reflexivity |].
  intros Hok. apply utf8_ok_head in Hok. simpl. rewrite Hok. reflexivity.
Qed.

Lemma strip_prefix_app (p s r : string) :
  strip_prefix p s = Some r ↔ s = p +:+ r.
Proof.
  revert s. induction p as [| a p IH]; intros s; simpl.
  - split; [intros [= ->] | intros ->]; reflexivity.
  - change (String a p +:+ r) with (String a (p +:+ r)).
    destruct s as [| b s]; [split; discriminate |].
    destruct (Ascii.eqb_spec a b) as [<- | Hne].
    + rewrite IH. split; [intros -> | intros [= ->]]; reflexivity.
    + split; [discriminate | intros [= Hab _]; congruence].
Qed.

Lemma startswith_strip (p s : string) :
  startswith s p = true ↔ is_Some (strip_prefix p s).
Proof.
  unfold startswith. revert s.
  induction p as [| a p IH]; intros [| b s]; simpl.
  - split; [intros _; by eexists | done].
  - split; [intros _; by eexists | done].
  - split; [discriminate | intros [? [=]]].
  - destruct (ascii_dec a b) as [<- | Hne].
    + rewrite Ascii.eqb_refl. apply IH.
    + apply Ascii.eqb_neq in Hne. rewrite Hne.
      split; [discriminate | intros [? [=]]].
Qed.

(** The payload of a data line is the line without its first six bytes. *)
Lemma payload_of_data_line (line payload : string) :
  utf8_ok line = true → strip_prefix "data: " line = Some payload →
  slice_from 6 line = payload.
Proof.
  intros Hok Hstrip. apply strip_prefix_app in Hstrip. subst line.
  apply (drop_cont_text payload). exact Hok.
Qed.

(** One turn of the loop is the result of its line. *)
Lemma parse_stream_line_run (py : limits) (chunks : list value) (l : line) :
  parse_stream_line py chunks l =
  match line_result py l with
  | Return o => Return (chunks ++ option_list o)
  | Raise e => Raise e
  end.
Proof.
  destruct l as [[| c b] | [| c s]];
    [simpl; by rewrite app_nil_r | | simpl; by rewrite app_nil_r | reflexivity].
  set (line := String c b).
  change (parse_stream_line py chunks (Bytes line)) with
    (match line_decode (Bytes line) with
     | Raise e => Raise e
     | Return line_str =>
       if startswith line_str "data: " then
         if negb (String.eqb (slice_from 6 line_str) "[DONE]") then
           match json_loads py (slice_from 6 line_str) with
           | Return chunk => Return (chunks ++ [chunk])
           | Raise e => if is_JSONDecodeError e then Return chunks else Raise e
           end
         else Return chunks
       else Return chunks
     end).
  change (line_result py (Bytes line)) with
    (if utf8_ok line then
       match strip_prefix "data: " line with
       | Some payload =>
         if String.eqb payload "[DONE]" then Return None
         else match json_loads py payload with
              | Return chunk => Return (Some chunk)
              | Raise e => if is_JSONDecodeError e then Return None else Raise e
              end
       | None => Return None
       end
     else Raise UnicodeDecodeError).
  clearbody line. unfold line_decode, decode_utf8.
  destruct (utf8_ok line) eqn:Hok; [| reflexivity].
  destruct (startswith line "data: ") eqn:Hstart.
  - apply startswith_strip in Hstart as [payload Hstrip].
    rewrite Hstrip, (payload_of_data_line line payload Hok Hstrip).
    destruct (String.eqb payload "[DONE]"); cbn [negb option_list];
      [by rewrite app_nil_r |].
    destruct (json_loads py payload) as [chunk | e]; cbn [option_list];
      [reflexivity |].
    destruct (is_JSONDecodeError e); cbn [option_list];
      [by rewrite app_nil_r | reflexivity].
  - destruct (strip_prefix "data: " line) as [payload |] eqn:Hstrip.
    + assert (Hs : startswith line "data: " = true)
        by (apply startswith_strip; eauto).
      congruence.
    + cbn [option_list]. by rewrite app_nil_r.
Qed.

Lemma parse_stream_lines_run (py : limits) (lines : list line)
  (chunks : list value) :
  parse_stream_lines py lines chunks =
  match collect (line_result py <$> lines) with
  | Return found => Return (chunks ++ found)
  | Raise e => Raise e
  end.
Proof.
  revert chunks. induction lines as [| l lines IH]; intros chunks; simpl.
  { by rewrite app_nil_r. }
  rewrite parse_stream_line_run.
  destruct (line_result py l) as [o | e]; [| reflexivity].
  rewrite IH. destruct (collect _) as [found | e]; [| reflexivity].
  by rewrite <- app_assoc.
Qed.

Lemma collect_app (r1 r2 : list (result (option value))) :
  collect (r1 ++ r2) =
  match collect r1 with
  | Return c1 =>
    match collect r2 with
    | Return c2 => Return (c1 ++ c2)
    | Raise e => Raise e
    end
  | Raise e => Raise e
  end.
Proof.
  induction r1 as [| [o | e] r1 IH]; simpl; [by destruct (collect r2) | | done].
  rewrite IH. destruct (collect r1) as [c1 |]; [| done].
  destruct (collect r2) as [c2 |]; [| done]. by rewrite app_assoc.
Qed.

Lemma collect_length (results : list (result (option value)))
  (chunks : list value) :
  collect results = Return chunks → (length chunks ≤ length results)%nat.
Proof.
  revert chunks. induction results as [| [o | e] results IH]; intros chunks; simpl.
  - intros [= <-]. done.
  - destruct (collect results) as [found |]; [| done].
    intros [= <-]. specialize (IH found eq_refl).
    rewrite length_app. destruct o; simpl; lia.
  - done.
Qed.

(** What stops a line. *)
Lemma line_result_raises (py : limits) (l : line) (e : exn) :
  line_result py l = Raise e →
  e = AttributeError "decode" ∨ e = UnicodeDecodeError ∨
  e = ValueError ∨ e = RecursionError.
Proof.
  destruct l as [[| c b] | [| c s]]; [done | | done | intros [= <-]; by left].
  set (line := String c b).
  change (line_result py (Bytes line)) with
    (if utf8_ok line then
       match strip_prefix "data: " line with
       | Some payload =>
         if String.eqb payload "[DONE]" then Return None
         else match json_loads py payload with
              | Return chunk => Return (Some chunk)
              | Raise e => if is_JSONDecodeError e then Return None else Raise e
              end
       | None => Return None
       end
     else Raise UnicodeDecodeError).
  clearbody line.
  destruct (utf8_ok line); [| intros [= <-]; auto].
  destruct (strip_prefix "data: " line) as [payload |]; [| done].
  destruct (String.eqb payload "[DONE]"); [done |].
  destruct (json_loads py payload) as [chunk | e'] eqn:Hloads; [done |].
  apply json_loads_raises in Hloads as [-> | [-> | ->]]; [done | |];
    intros [= <-]; auto.
Qed.

Lemma collect_raises (py : limits) (lines : list line) (e : exn) :
  collect (line_result py <$> lines) = Raise e →
  ∃ l, l ∈ lines ∧ line_result py l = Raise e.
Proof.
  induction lines as [| l lines IH]; simpl; [done |].
  destruct (line_result py l) as [o | e'] eqn:Hl.
  - destruct (collect _) as [found | e'']; [done |].
    intros [= <-]. destruct (IH eq_refl) as (l' & Hin & Hl').
    exists l'. split; [by apply list_elem_of_further | done].
  - intros [= <-]. exists l. split; [apply list_elem_of_here | done].
Qed.

(** X18. What [parse_stream_data] gives: the results of its lines, up to
    the first one that raises. An empty line gives nothing. A line that
    is text and not empty raises [AttributeError], for want of [decode];
    a [bytes] line that is not UTF-8 raises [UnicodeDecodeError]; a line
    made of the prefix and a document on which [json.loads] raises
    [ValueError] or [RecursionError] raises that. Of the other lines, one
    made of the prefix and a JSON document other than the sentinel gives
    one chunk and every other line gives nothing.
    On a response that delivers its lines, [parse_stream_data]
    raises as the first line that raises, whatever was decoded before it,
    and otherwise returns the chunks in the order of the lines; it raises
    no other exception than those four, and the first text line that is
    not empty, after lines that decode, makes it raise [AttributeError]. *)
Theorem parse_stream_data_run (py : limits) (response : Response) :
  parse_stream_data py response =
    collect (line_result py <$> iter_lines response) ∧
  (∀ e, parse_stream_data py response = Raise e →
        e = AttributeError "decode" ∨ e = UnicodeDecodeError ∨
        e = ValueError ∨ e = RecursionError) ∧
  (∀ before s after found,
     iter_lines response = before ++ Str s :: after → s ≠ "" →
     parse_stream_data py (stream_of before) = Return found →
     parse_stream_data py response = Raise (AttributeError "decode")).
Proof.
  assert (Hrun : ∀ r, parse_stream_data py r =
                      collect (line_result py <$> iter_lines r)).
  { intros r. unfold parse_stream_data. rewrite parse_stream_lines_run.
    by destruct (collect _). }
  split_and!; [apply Hrun | |].
  - intros e. rewrite Hrun. intros Hraise.
    apply collect_raises in Hraise as (l & _ & Hl).
    by apply (line_result_raises py l).
  - intros before s after found Hlines Hs. rewrite !Hrun, Hlines.
    cbn [iter_lines stream_of]. intros Hbefore.
    rewrite fmap_app, collect_app, Hbefore.
    destruct s as [| c s]; [done | reflexivity].
Qed.

(** X18 at work on the sample lines as text. *)
Lemma parse_stream_data_run_witness :
  parse_stream_data cpython (stream_of sample_text_stream) =
  Raise (AttributeError "decode").
Proof.
  apply (proj2 (proj2 (parse_stream_data_run cpython (stream_of sample_text_stream)))
           [] ("data: {" +:+ quoted "a" +:+ ":1}") (Str <$> tail sample_lines) []).
  - reflexivity.
  - discriminate.
  - reflexivity.
Defined.

(** X19. A line whose result is no chunk and no exception makes no
    difference wherever it stands in the stream: the stream with it and
    the stream without it decode alike. The empty line of either kind
    and, as [bytes], the sentinel line, a line that has the prefix without
    its space, and a comment line are such lines under any limits; a
    sentinel line that is text is not, nor is a data line nested deeper
    than the interpreter has room for. *)
Theorem parse_stream_data_noise (py : limits) (noise : line)
  (before after : list line) :
  line_result py noise = Return None →
  parse_stream_data py (stream_of (before ++ noise :: after)) =
  parse_stream_data py (stream_of (before ++ after)).
Proof.
  intros Hnone. unfold parse_stream_data. rewrite !parse_stream_lines_run.
  cbn [iter_lines stream_of app].
  rewrite !fmap_app, !collect_app. cbn [fmap list_fmap collect].
  change (list_fmap line (result (option value)) (line_result py) after)
    with (line_result py <$> after).
  rewrite Hnone.
  destruct (collect (line_result py <$> before)) as [c1 |]; [| reflexivity].
  destruct (collect (line_result py <$> after)) as [c2 |]; reflexivity.
Qed.

Lemma noise_lines (py : limits) :
  line_result py <$>
    [Bytes ""; Str ""; Bytes "data: [DONE]"; Bytes "data:[1]"; Bytes ": keep-alive"] =
  [Return None; Return None; Return None; Return None; Return None].
Proof. reflexivity. Qed.

Lemma not_noise_lines :
  line_result cpython <$>
    [Str "data: [DONE]"; Bytes ("data: " +:+ str_mul "[" 1000);
     Bytes ("data: " +:+ str_mul "1" 4301); Bytes (String "255" "")] =
  [Raise (AttributeError "decode"); Raise RecursionError; Raise ValueError;
   Raise UnicodeDecodeError].
Proof. vm_compute. reflexivity. Qed.

(** X19 at work: the sentinel in the middle of a stream. *)
Lemma parse_stream_data_noise_witness :
  parse_stream_data cpython
    (stream_of ([Bytes "data: 1"] ++ Bytes "data: [DONE]" :: [Bytes "data: 2"])) =
  parse_stream_data cpython (stream_of ([Bytes "data: 1"] ++ [Bytes "data: 2"])).
Proof.
  apply (parse_stream_data_noise cpython (Bytes "data: [DONE]") [Bytes "data: 1"]
           [Bytes "data: 2"]).
  reflexivity.
Defined.

(** X20. Decoding goes line by line: when two streams decode, the stream
    made of the first followed by the second decodes to the chunks of the
    first followed by the chunks of the second. *)
Theorem parse_stream_data_app (py : limits) (l1 l2 : list line)
  (c1 c2 : list value) :
  parse_stream_data py (stream_of l1) = Return c1 →
  parse_stream_data py (stream_of l2) = Return c2 →
  parse_stream_data py (stream_of (l1 ++ l2)) = Return (c1 ++ c2).
Proof.
  unfold parse_stream_data. rewrite !parse_stream_lines_run.
  cbn [iter_lines stream_of app].
  rewrite fmap_app, collect_app.
  destruct (collect (line_result py <$> l1)); [| discriminate].
  destruct (collect (line_result py <$> l2)); [| discriminate].
  intros [= <-] [= <-]. reflexivity.
Qed.

Lemma parse_stream_data_app_witness :
  parse_stream_data cpython
    (stream_of ([Bytes "data: 1"; Bytes ""] ++ [Bytes "data: [2]"])) =
  Return ([VInt 1] ++ [VList [VInt 2]]).
Proof.
  apply (parse_stream_data_app cpython [Bytes "data: 1"; Bytes ""]
           [Bytes "data: [2]"]);
    vm_compute; reflexivity.
Defined.

(** X21. There is at most one chunk per line. *)
Theorem parse_stream_data_length (py : limits) (response : Response)
  (chunks : list value) :
  parse_stream_data py response = Return chunks →
  (length chunks ≤ length (iter_lines response))%nat.
Proof.
  unfold parse_stream_data. rewrite parse_stream_lines_run. cbn [app].
  destruct (collect _) as [found |] eqn:Hfound; [| discriminate].
  intros [= <-]. apply collect_length in Hfound.
  by rewrite length_fmap in Hfound.
Qed.

Lemma parse_stream_data_length_witness :
  (length [VDict [("a", VInt 1)]; VDict [("a", VInt 2)]] ≤
   length (iter_lines (stream_of sample_stream)))%nat.
Proof.
  apply (parse_stream_data_length cpython (stream_of sample_stream)).
  vm_compute. reflexivity.
Defined.

(** ASCII text is UTF-8. *)
Lemma utf8_ok_ascii (s : string) :
  Forall (λ c, (byte c < 128)%N) (String.list_ascii_of_string s) → utf8_ok s = true.
Proof.
  induction s as [| c s IH]; [reflexivity |].
  intros Hall. apply Forall_cons in Hall as [Hc Hs].
  cbn [utf8_ok].
  assert (Hr : in_range 0 127 c = true) by (apply in_range_spec; lia).
  rewrite Hr. auto.
Qed.

(** A plain line stops nothing. *)
Lemma plain_line_result (py : limits) (l : line) :
  plain_line py l = true → ∃ o, line_result py l = Return o.
Proof.
  destruct l as [[| c b] | [| c s]]; [by eexists | | by eexists | done].
  set (line := String c b).
  change (line_result py (Bytes line)) with
    (if utf8_ok line then
       match strip_prefix "data: " line with
       | Some payload =>
         if String.eqb payload "[DONE]" then Return None
         else match json_loads py payload with
              | Return chunk => Return (Some chunk)
              | Raise e => if is_JSONDecodeError e then Return None else Raise e
              end
       | None => Return None
       end
     else Raise UnicodeDecodeError).
  clearbody line. unfold plain_line.
  intros [Hascii Hwithin]%andb_true_iff.
  rewrite utf8_ok_ascii; last first.
  { apply Forall_forall. intros a Ha. rewrite forallb_forall in Hascii.
    apply N.ltb_lt, Hascii. by apply list_elem_of_In. }
  destruct (strip_prefix "data: " line) as [payload |] eqn:Hstrip; [| by eexists].
  destruct (String.eqb payload "[DONE]"); [by eexists |].
  apply strip_prefix_length in Hstrip.
  assert (Hpayload : within_limits py payload = true).
  { apply within_limits_spec. apply within_limits_spec in Hwithin. lia. }
  destruct (json_loads_within py payload Hpayload) as [[v ->] | ->]; by eexists.
Qed.

(** X22. A stream of plain lines always decodes. When every line is empty
    or is [bytes] of ASCII no longer than the limits of the interpreter,
    [parse_stream_data] returns, whatever the lines say: there is no line
    without [decode], no byte that is not UTF-8, no integer of too many
    digits and no nesting too deep. *)
Theorem parse_stream_data_ascii (py : limits) (response : Response) :
  forallb (plain_line py) (iter_lines response) = true →
  ∃ chunks, parse_stream_data py response = Return chunks.
Proof.
  unfold parse_stream_data. rewrite parse_stream_lines_run.
  generalize (iter_lines response) as lines.
  induction lines as [| l lines IH]; [by eexists |].
  cbn [forallb]. intros [Hl Hlines]%andb_true_iff.
  destruct (IH Hlines) as [chunks Hchunks].
  destruct (plain_line_result py l Hl) as [o Ho].
  cbn [fmap list_fmap collect].
  change (list_fmap line (result (option value)) (line_result py) lines)
    with (line_result py <$> lines).
  rewrite Ho. destruct (collect (line_result py <$> lines)); [| done].
  by eexists.
Qed.

Lemma parse_stream_data_ascii_witness :
  ∃ chunks,
    parse_stream_data cpython
      (stream_of [Bytes "event: ping"; Bytes "data: {broken"; Bytes "data: 7"]) =
    Return chunks.
Proof.
  apply (parse_stream_data_ascii cpython
           (stream_of [Bytes "event: ping"; Bytes "data: {broken"; Bytes "data: 7"])).
  vm_compute. reflexivity.
Defined.

(** The lines that are not plain, and do stop the decoding. *)
Lemma parse_stream_data_not_plain :
  (λ l, (plain_line cpython l, parse_stream_data cpython (stream_of [l]))) <$>
    [Bytes ("data: " +:+ str_mul "1" 4301); Bytes ("data: " +:+ str_mul "[" 1000);
     Str "data: 7"] =
  [(false, Raise ValueError); (false, Raise RecursionError);
   (false, Raise (AttributeError "decode"))].
Proof. vm_compute. reflexivity. Qed.

(* ===================================================================== *)
(** * More on the status checks                                        *)
(* ===================================================================== *)

(** The codes below 1000 whose decimal form starts with 2. *)
Lemma starts_with_2_below_1000 (code : Z) :
  0 ≤ code ≤ 999 →
  (startswith (str_int code) "2" = true ↔
   code = 2 ∨ 20 ≤ code ≤ 29 ∨ 200 ≤ code ≤ 299).
Proof.
  intros Hrange.
  assert (Hall : forallb (λ n : nat,
            bool_decide (startswith (str_int (Z.of_nat n)) "2" =
                         ((Z.of_nat n =? 2) ||
                          ((20 <=? Z.of_nat n) && (Z.of_nat n <=? 29)) ||
                          ((200 <=? Z.of_nat n) && (Z.of_nat n <=? 299)))))
            (seq 0 1000) = true) by (vm_compute; reflexivity).
  rewrite forallb_forall in Hall.
  specialize (Hall (Z.to_nat code)).
  rewrite Z2Nat.id in Hall by lia.
  apply bool_decide_eq_true in Hall; [| apply in_seq; lia].
  rewrite Hall, !orb_true_iff, !andb_true_iff, Z.eqb_eq, !Z.leb_le. tauto.
Qed.

(** X23. Which statuses [check_status_code_success] lets through: of the
    three-digit codes, 200 to 299 and no other. The test is on the first
    character of the decimal form, so 2 and 20 to 29 pass as well, and no
    negative number does. *)
Theorem check_status_code_success_range (r : Response) (σ : state) :
  (100 ≤ status_code r ≤ 999 →
   ((check_status_code_success r σ).1 = Return tt ↔ 200 ≤ status_code r ≤ 299)) ∧
  (0 ≤ status_code r ≤ 99 →
   ((check_status_code_success r σ).1 = Return tt ↔
    status_code r = 2 ∨ 20 ≤ status_code r ≤ 29)) ∧
  (status_code r < 0 → (check_status_code_success r σ).1 ≠ Return tt).
Proof.
  assert (Hret : (check_status_code_success r σ).1 = Return tt ↔
                 startswith (str_int (status_code r)) "2" = true).
  { unfold check_status_code_success, assert_, ret, raise.
    destruct (startswith (str_int (status_code r)) "2"); simpl;
      split; congruence. }
  rewrite Hret. split_and!.
  - intros Hrange. rewrite starts_with_2_below_1000 by lia. lia.
  - intros Hrange. rewrite starts_with_2_below_1000 by lia. lia.
  - destruct (status_code r) as [| p | p]; [lia | lia |]. intros _. discriminate.
Qed.

Lemma check_status_code_success_range_witness :
  (check_status_code_success (response_of 299 None) empty_state).1 = Return tt.
Proof.
  apply (proj1 (check_status_code_success_range (response_of 299 None) empty_state)).
  - simpl. lia.
  - simpl. lia.
Defined.

Section StatusCheckEdges.

Variable repr : value → string.

(** X24. When a 200 comes back where another status was expected,
    [check_status_code] raises without having looked at the body: the
    diagnostic in the message is [None] whatever the body holds, and
    [json()] has not been called. *)
Theorem check_status_code_200_unexpected (r : Response) (c : Z) (σ : state) :
  status_code r = 200 → c ≠ 200 →
  check_status_code repr r c σ =
  (Raise (AssertionError
     ("Wrong response code. Expected = " +:+ str_int c +:+
      ", received = 200 | error = " +:+ repr VNone)), σ).
Proof.
  intros H200 Hc. rewrite check_status_code_run. unfold diagnostic.
  rewrite H200.
  assert (Hne : (200 =? c) = false) by (apply Z.eqb_neq; congruence).
  rewrite Hne. reflexivity.
Qed.

(** X28. Where [json()] is not called or settles, the check is the
    comparison. On a response of status 200, and on one whose [json()]
    returns or raises [JSONDecodeError], [check_status_code] returns
    exactly when the status is the expected code; on every other pair it
    raises an [AssertionError] whose message carries the expected code and
    the status received, followed by the diagnostic. *)
Theorem check_status_code_iff (r : Response) (c : Z) (σ : state) :
  status_code r = 200 ∨ handled r = true →
  ((check_status_code repr r c σ).1 = Return tt ↔ status_code r = c) ∧
  (status_code r ≠ c →
   (check_status_code repr r c σ).1 =
   Raise (AssertionError
     ("Wrong response code. Expected = " +:+ str_int c +:+
      ", received = " +:+ str_int (status_code r) +:+
      " | error = " +:+
      py_str repr (if status_code r =? 200 then VNone
                   else match json r with
                        | Return v => v
                        | Raise _ => VStr "Unable to parse error"
                        end)))).
Proof.
  intros Hsettles. rewrite check_status_code_run. cbn [fst].
  assert (Hd : diagnostic r =
               Return (if status_code r =? 200 then VNone
                       else match json r with
                            | Return v => v
                            | Raise _ => VStr "Unable to parse error"
                            end)).
  { destruct Hsettles as [H200 | Hh].
    - unfold diagnostic. rewrite H200. reflexivity.
    - unfold diagnostic, handled in *.
      destruct (status_code r =? 200); [reflexivity |].
      destruct (json r) as [v | e]; [reflexivity |]. rewrite Hh. reflexivity. }
  rewrite Hd.
  destruct (Z.eqb_spec (status_code r) c) as [Heq | Hne]; split.
  - tauto.
  - intros Hne. contradiction.
  - split; [discriminate | contradiction].
  - reflexivity.
Qed.

End StatusCheckEdges.

(** X28 at work: 404 received where 200 was expected, with a body that
    does not decode. *)
Lemma check_status_code_iff_witness :
  (check_status_code repr_brief (response_of 404 None) 200 empty_state).1 =
  Raise (AssertionError
    "Wrong response code. Expected = 200, received = 404 | error = Unable to parse error").
Proof.
  apply (proj2 (check_status_code_iff repr_brief (response_of 404 None) 200
                  empty_state (or_intror eq_refl))).
  vm_compute. discriminate.
Defined.

(** X24 at work: a created resource was expected, 200 came back with a
    body. *)
Lemma check_status_code_200_unexpected_witness :
  check_status_code repr_brief
    (response_of 200 (Some (VDict [("id", VInt 7)]))) 201 empty_state =
  (Raise (AssertionError
     "Wrong response code. Expected = 201, received = 200 | error = None"),
   empty_state).
Proof.
  apply (check_status_code_200_unexpected repr_brief
           (response_of 200 (Some (VDict [("id", VInt 7)]))) 201 empty_state).
  - reflexivity.
  - discriminate.
Defined.

(* ===================================================================== *)
(** * The test data generator                                          *)
(* ===================================================================== *)

(** A choice from a list that is not empty is one of its elements. *)
Lemma choice_in (draw : nat) (seq : list string) :
  seq ≠ [] → ChatDataGenerator.choice draw seq ∈ seq.
Proof.
  intros Hne. unfold ChatDataGenerator.choice.
  apply list_elem_of_In, nth_In.
  apply Nat.mod_upper_bound. destruct seq; [done | simpl; lia].
Qed.

(** The default user message is a message of the role [user]. *)
Lemma generate_user_message_content_aux (draw : nat) :
  ∃ content : string,
    ChatDataGenerator.generate_user_message draw None =
    ChatDataGenerator.message "user" content.
Proof. eexists. reflexivity. Qed.

(** X25. [generate_user_message] always gives a message of the role
    [user]. Its content is one of the five sentences of the content type
    asked for when that is one of general, health, workout and coding, and
    one of the five general sentences for any other content type and when
    none is given. *)
Theorem generate_user_message_content (draw : nat) (content_type : option string) :
  ∃ (sentences : list string) (content : string),
    ChatDataGenerator.generate_user_message draw content_type =
      ChatDataGenerator.message "user" content ∧
    content ∈ sentences ∧ length sentences = 5%nat ∧
    ChatDataGenerator.lookup_type
      (if bool_decide (default "general" content_type ∈
                         ["general"; "health"; "workout"; "coding"])
       then default "general" content_type else "general")
      ChatDataGenerator.content_types = Some sentences.
Proof.
  unfold ChatDataGenerator.generate_user_message.
  set (ct := default "general" content_type).
  destruct (ChatDataGenerator.lookup_type ct ChatDataGenerator.content_types)
    as [sentences |] eqn:Hlook.
  - assert (Hknown : ct ∈ ["general"; "health"; "workout"; "coding"] ∧
                     length sentences = 5%nat).
    { revert Hlook. unfold ChatDataGenerator.content_types.
      cbn [ChatDataGenerator.lookup_type].
      repeat match goal with
             | |- context [String.eqb ct ?k] =>
               destruct (String.eqb_spec ct k) as [-> | ?]
             end; intros [= <-] || intros [=];
        (split; [rewrite !elem_of_cons; auto | reflexivity]). }
    destruct Hknown as [Hin Hlen].
    rewrite bool_decide_eq_true_2 by exact Hin. rewrite Hlook.
    exists sentences, (ChatDataGenerator.choice draw sentences).
    split_and!; try done.
    apply choice_in. intros ->. discriminate.
  - assert (Hunknown : ct ∉ ["general"; "health"; "workout"; "coding"]).
    { intros Hin. rewrite !elem_of_cons, elem_of_nil in Hin.
      destruct Hin as [Heq | [Heq | [Heq | [Heq | []]]]];
        rewrite Heq in Hlook; discriminate. }
    rewrite bool_decide_eq_false_2 by exact Hunknown.
    eexists _, _. split; [reflexivity |].
    split_and!; [| | reflexivity]; [| reflexivity].
    apply choice_in. discriminate.
Qed.

(** X26. [generate_chat_request] keeps a list of messages that is not
    empty as it is, and then never uses the random generator. Without
    messages, and also with an empty list, it makes three: a system
    message, a user message and an assistant message with no content, in
    that order. *)
Theorem generate_chat_request_messages (draw : nat)
  (messages : option (list value))
  (temperature top_p n presence frequency : option value)
  (stream : option bool) (model : option string) :
  ∃ sent : list value,
    ChatDataGenerator.generate_chat_request draw messages temperature top_p n
      presence frequency stream model =
    VDict [("temperature", default (VFloat "0.4") temperature);
           ("top_p", default (VFloat "1.0") top_p);
           ("n", default (VInt 1) n);
           ("presence_penalty", default (VInt 0) presence);
           ("frequency_penalty", default (VInt 0) frequency);
           ("stream", VBool (default false stream));
           ("model", VStr (default "gpt-4-0125-preview" model));
           ("messages", VList sent)] ∧
    (∀ given : list value, messages = Some given → given ≠ [] → sent = given) ∧
    (messages = None ∨ messages = Some [] →
     ∃ user_content : string,
       sent = [ChatDataGenerator.message "system" ChatDataGenerator.default_content;
               ChatDataGenerator.message "user" user_content;
               ChatDataGenerator.message "assistant" ""]).
Proof.
  unfold ChatDataGenerator.generate_chat_request.
  eexists. split; [reflexivity |]. split.
  - intros given -> Hne. destruct given; [done | reflexivity].
  - destruct (generate_user_message_content_aux draw) as [content Hcontent].
    intros [-> | ->]; exists content; rewrite <- Hcontent; reflexivity.
Qed.

Section PayloadAgreement.

Variable repr : value → string.
Variable transport : Client → Call → result Response.

(** X27. For a list of messages that is not empty, the body that
    [post_chat_completion] sends is the payload that
    [generate_chat_request] makes from the same arguments. For the empty
    list the two part: [post_chat_completion] sends the empty list, the
    payload of [generate_chat_request] has the three default messages. *)
Theorem chat_body_is_generated (self : ChatApi) (c : loc) (draw : nat)
  (messages : list value) (model : option string)
  (temperature top_p n presence frequency : option value)
  (stream : option bool) (expected : option Z) (σ : state) :
  client (base self) = Some c →
  (messages ≠ [] →
   call_kwargs <$>
     sent_calls (trace (post_chat_completion repr transport self messages model
                          temperature top_p n presence frequency stream
                          expected σ).2) =
   (call_kwargs <$> sent_calls (trace σ)) ++
   [{["json" := ChatDataGenerator.generate_chat_request draw (Some messages)
                  temperature top_p n presence frequency stream model]}]) ∧
  (messages = [] →
   ∃ body : value,
     call_kwargs <$>
       sent_calls (trace (post_chat_completion repr transport self messages model
                            temperature top_p n presence frequency stream
                            expected σ).2) =
     (call_kwargs <$> sent_calls (trace σ)) ++ [{["json" := body]}] ∧
     body ≠ ChatDataGenerator.generate_chat_request draw (Some messages)
              temperature top_p n presence frequency stream model).
Proof.
  intros Hc.
  assert (Hsent :
    call_kwargs <$>
      sent_calls (trace (post_chat_completion repr transport self messages model
                           temperature top_p n presence frequency stream
                           expected σ).2) =
    (call_kwargs <$> sent_calls (trace σ)) ++
    [{["json" :=
         VDict [("temperature", default (VFloat "0.4") temperature);
                ("top_p", default (VFloat "1.0") top_p);
                ("n", default (VInt 1) n);
                ("presence_penalty", default (VInt 0) presence);
                ("frequency_penalty", default (VInt 0) frequency);
                ("stream", VBool (default false stream));
                ("model", VStr (default "gpt-4-0125-preview" model));
                ("messages", VList messages)]]}]).
  { unfold post_chat_completion, post.
    match goal with
    | |- context [request repr transport ?s ?m ?u ?h ?e ?kw σ] =>
      destruct (request_sends repr transport s c m u h e kw σ Hc) as [-> _]
    end.
    rewrite fmap_app. cbn [fmap list_fmap call_kwargs].
    unfold convert_data, body_bearing.
    rewrite bool_decide_eq_true_2 by (rewrite !elem_of_cons; auto).
    rewrite lookup_insert_eq. cbn [is_dict is_list is_str orb andb negb].
    rewrite delete_insert_ne by done. rewrite delete_insert_eq.
    rewrite delete_empty. reflexivity. }
  split.
  - intros Hne. rewrite Hsent. destruct messages; [done | reflexivity].
  - intros ->. eexists. split; [exact Hsent |].
    unfold ChatDataGenerator.generate_chat_request. intros [= Heq].
Qed.

End PayloadAgreement.

(** X27 at work on the sample session. *)
Lemma chat_body_is_generated_witness :
  call_kwargs <$>
    sent_calls (trace (post_chat_completion repr_brief always_ok sample_chat
                         sample_messages None None None None None None None None
                         sample_state).2) =
  [{["json" := ChatDataGenerator.generate_chat_request 0 (Some sample_messages)
                 None None None None None None None]}].
Proof.
  apply (proj1 (chat_body_is_generated repr_brief always_ok sample_chat 1%nat 0
                  sample_messages None None None None None None None None
                  sample_state eq_refl)).
  discriminate.
Defined.
